(** * PwnZero: the Flipper Zero serial protocol encoder of pwnagotchi-flipper

    A shallow embedding of [src/pwnzero/PwnZero.py]: the three wire
    enumerations, the byte predicate, the string helper, the frame
    builder/sender [_send_data], the public [set_*] methods, the constructor
    and [close].

    Python integers are [Z]; a Python [str] is the list of its code points;
    a [bytes] object is a list of integers in [range(256)].  The [serial]
    package is not part of the repository: it is taken as a parameter
    ([SerialDriver]) that decides what every open and write attempt does.
    Calls that reach the device are recorded in a history of events, and
    Python exceptions are an explicit [Raise] outcome. *)

From Stdlib Require Import ZArith List Bool String Ascii Lia DecimalString.
Import ListNotations.

Local Open Scope Z_scope.

(** ** Python values *)

(** A character is its code point; [ord] gives it back as a Python int. *)
Definition pychar := N.
Definition pystr := list pychar.

Definition ord (c : pychar) : Z := Z.of_N c.

(** String literals of the source, as Python strings. *)
Definition py (s : string) : pystr := map N_of_ascii (list_ascii_of_string s).

(** [str(i)] for an int: its decimal numeral. *)
Definition str_int (i : Z) : pystr := py (NilZero.string_of_int (Z.to_int i)).

(** [len(x)] as a Python int. *)
Definition len {A : Type} (l : list A) : Z := Z.of_nat (List.length l).

(** [l.append(x)] returns the list after the update. *)
Definition append {A : Type} (l : list A) (x : A) : list A := l ++ [x].

(** A [for x in xs:] loop whose body may [return]: [Some r] when the body
    returned [r] at some element, [None] when the loop ran to its end. *)
Fixpoint for_in {A R : Type} (xs : list A) (body : A -> option R) : option R :=
  match xs with
  | [] => None
  | x :: rest =>
      match body x with
      | Some r => Some r
      | None => for_in rest body
      end
  end.

(** ** The wire enumerations (source lines 7 to 64) *)

Module PwnZeroParam.
Inductive t : Set :=
| FACE | NAME | CHANNEL | APS | UPTIME | FRIEND | MODE | HANDSHAKES | MESSAGE.

Definition value (p : t) : Z :=
  match p with
  | FACE => 4
  | NAME => 5
  | CHANNEL => 6
  | APS => 7
  | UPTIME => 8
  | FRIEND => 9
  | MODE => 10
  | HANDSHAKES => 11
  | MESSAGE => 12
  end.

(** The members in definition order, as iterating the Enum class gives. *)
Definition members : list t :=
  [FACE; NAME; CHANNEL; APS; UPTIME; FRIEND; MODE; HANDSHAKES; MESSAGE].
End PwnZeroParam.

Module PwnMode.
Inductive t : Set := MANU | AUTO | AI.

Definition value (m : t) : Z :=
  match m with
  | MANU => 4
  | AUTO => 5
  | AI => 6
  end.

Definition members : list t := [MANU; AUTO; AI].
End PwnMode.

Module PwnFace.
Inductive t : Set :=
| NO_FACE | DEFAULT_FACE | LOOK_R | LOOK_L | LOOK_R_HAPPY | LOOK_L_HAPPY
| SLEEP | SLEEP2 | AWAKE | BORED | INTENSE | COOL | HAPPY | GRATEFUL
| EXCITED | MOTIVATED | DEMOTIVATED | SMART | LONELY | SAD | ANGRY
| FRIEND | BROKEN | DEBUG | UPLOAD | UPLOAD1 | UPLOAD2.

Definition value (f : t) : Z :=
  match f with
  | NO_FACE => 4
  | DEFAULT_FACE => 5
  | LOOK_R => 6
  | LOOK_L => 7
  | LOOK_R_HAPPY => 8
  | LOOK_L_HAPPY => 9
  | SLEEP => 10
  | SLEEP2 => 11
  | AWAKE => 12
  | BORED => 13
  | INTENSE => 14
  | COOL => 15
  | HAPPY => 16
  | GRATEFUL => 17
  | EXCITED => 18
  | MOTIVATED => 19
  | DEMOTIVATED => 20
  | SMART => 21
  | LONELY => 22
  | SAD => 23
  | ANGRY => 24
  | FRIEND => 25
  | BROKEN => 26
  | DEBUG => 27
  | UPLOAD => 28
  | UPLOAD1 => 29
  | UPLOAD2 => 30
  end.

Definition members : list t :=
  [NO_FACE; DEFAULT_FACE; LOOK_R; LOOK_L; LOOK_R_HAPPY; LOOK_L_HAPPY;
   SLEEP; SLEEP2; AWAKE; BORED; INTENSE; COOL; HAPPY; GRATEFUL;
   EXCITED; MOTIVATED; DEMOTIVATED; SMART; LONELY; SAD; ANGRY;
   FRIEND; BROKEN; DEBUG; UPLOAD; UPLOAD1; UPLOAD2].
End PwnFace.

(** ** Exceptions and the effect monad *)

(** The exception classes the code can meet, all subclasses of [Exception]. *)
Inductive exn_class : Set :=
| SerialException
| PortNotOpenError
| SerialTimeoutException
| OSError
| ValueError
| RuntimeError.

(** An exception object: its class and its message, [str(e)]. *)
Record exn : Set := Exn { exn_cls : exn_class; exn_msg : pystr }.

Inductive result (A : Type) : Type :=
| Ret (a : A)
| Raise (e : exn).
Arguments Ret {A} a.
Arguments Raise {A} e.

(** What reached the serial device, oldest first. *)
Inductive event : Set :=
| EvOpen (port : pystr) (baud : Z)
| EvWrite (data : list Z)
| EvClose.

Definition World := list event.

(** A computation reads and extends the history and returns or raises. *)
Definition M (A : Type) : Type := World -> result A * World.

Definition ret {A : Type} (a : A) : M A := fun w => (Ret a, w).

Definition raise {A : Type} (e : exn) : M A := fun w => (Raise e, w).

Definition bind {A B : Type} (m : M A) (k : A -> M B) : M B :=
  fun w =>
    match m w with
    | (Ret a, w') => k a w'
    | (Raise e, w') => (Raise e, w')
    end.

(** [try: m  except Exception as e: h e]. *)
Definition try_except {A : Type} (m : M A) (h : exn -> M A) : M A :=
  fun w =>
    match m w with
    | (Ret a, w') => (Ret a, w')
    | (Raise e, w') => h e w'
    end.

Declare Scope py_scope.
Delimit Scope py_scope with py.
Notation "x <- m ;; k" := (bind m (fun x => k))
  (at level 61, m at next level, right associativity) : py_scope.
Local Open Scope py_scope.

(** ** The serial package, as far as the plugin uses it *)

Inductive open_outcome : Set :=
| Opened
| OpenFailed (e : exn).

Inductive write_outcome : Set :=
| Wrote (n : Z)
| WriteFailed (e : exn).

(** The device behind [serial.Serial]: given the history so far, whether an
    open attempt succeeds, and what a write of some bytes reports. *)
Class SerialDriver : Type := {
  os_open : World -> pystr -> Z -> open_outcome;
  os_write : World -> list Z -> write_outcome
}.

(** A [serial.Serial] object. *)
Record Serial : Set := {
  port : pystr;
  baudrate : Z;
  is_open : bool
}.

Definition port_not_open : exn :=
  Exn PortNotOpenError (py "Attempting to use a port that is not open").

(** [bytes(data)] of a list of ints: every element must be in [range(256)]. *)
Definition bytes (data : list Z) : M (list Z) :=
  if forallb (fun b => (0 <=? b) && (b <? 256)) data
  then ret data
  else raise (Exn ValueError (py "bytes must be in range(0, 256)")).

Section Plugin.

Context {drv : SerialDriver}.

(** [serial.Serial(port, baud)]: the port is opened at once. *)
Definition Serial_new (port : pystr) (baud : Z) : M Serial :=
  fun w =>
    match os_open w port baud with
    | Opened =>
        (Ret {| port := port; baudrate := baud; is_open := true |},
         w ++ [EvOpen port baud])
    | OpenFailed e => (Raise e, w ++ [EvOpen port baud])
    end.

(** [conn.write(data)]: the number of bytes written, or an exception. *)
Definition Serial_write (conn : Serial) (data : list Z) : M Z :=
  fun w =>
    if is_open conn then
      match os_write w data with
      | Wrote n => (Ret n, w ++ [EvWrite data])
      | WriteFailed e => (Raise e, w ++ [EvWrite data])
      end
    else (Raise port_not_open, w).

(** [conn.close()]: releases the port when it is open. *)
Definition Serial_close (conn : Serial) : M Serial :=
  fun w =>
    if is_open conn then
      (Ret {| port := port conn; baudrate := baudrate conn; is_open := false |},
       w ++ [EvClose])
    else (Ret conn, w).

(** ** class PwnZero (source lines 67 to 238) *)

Record PwnZero : Set := {
  _port : pystr;
  _baud : Z;
  _serialConn : Serial
}.

Definition PROTOCOL_START : Z := 0x02.
Definition PROTOCOL_END : Z := 0x03.

Definition __init__ (port : pystr) (baud : Z) : M PwnZero :=
  try_except
    (conn <- Serial_new port baud ;;
     ret {| _port := port; _baud := baud; _serialConn := conn |})
    (fun e =>
       raise (Exn RuntimeError
                (py "Cannot bind to port " ++ port ++ py " with baud "
                   ++ str_int baud ++ py ": " ++ exn_msg e))).

(** [close] returns the object after the update of its connection. *)
Definition close (self : PwnZero) : M PwnZero :=
  conn <- Serial_close (_serialConn self) ;;
  ret {| _port := _port self; _baud := _baud self; _serialConn := conn |}.

Definition _is_byte (self : PwnZero) (i : Z) : bool :=
  (0 <=? i) && (i <? 256).

Definition _str_to_bytes (self : PwnZero) (s : pystr) : list Z :=
  let retVal := [] in
  fold_left (fun retVal c => append retVal (ord c)) s retVal.

Definition _send_data (self : PwnZero) (param : Z) (args : list Z) : M bool :=
  if negb (_is_byte self param) then ret false
  else
    match for_in args
            (fun i => if negb (_is_byte self i) then Some false else None) with
    | Some r => ret r
    | None =>
        let data := [PROTOCOL_START] in
        let data := append data param in
        let data := fold_left (fun data arg => append data arg) args data in
        let data := append data PROTOCOL_END in
        data_bytes <- bytes data ;;
        written <- Serial_write (_serialConn self) data_bytes ;;
        ret (written =? len data_bytes)
    end.

Definition set_face (self : PwnZero) (face : PwnFace.t) : M bool :=
  _send_data self (PwnZeroParam.value PwnZeroParam.FACE) [PwnFace.value face].

Definition set_name (self : PwnZero) (name : pystr) : M bool :=
  let data := _str_to_bytes self name in
  _send_data self (PwnZeroParam.value PwnZeroParam.NAME) data.

Definition set_channel (self : PwnZero) (channelInfo : pystr) : M bool :=
  let data := _str_to_bytes self channelInfo in
  _send_data self (PwnZeroParam.value PwnZeroParam.CHANNEL) data.

Definition set_aps (self : PwnZero) (apsInfo : pystr) : M bool :=
  let data := _str_to_bytes self apsInfo in
  _send_data self (PwnZeroParam.value PwnZeroParam.APS) data.

Definition set_uptime (self : PwnZero) (uptimeInfo : pystr) : M bool :=
  let data := _str_to_bytes self uptimeInfo in
  _send_data self (PwnZeroParam.value PwnZeroParam.UPTIME) data.

Definition set_friend (self : PwnZero) : M bool :=
  ret false.

Definition set_mode (self : PwnZero) (mode : PwnMode.t) : M bool :=
  _send_data self (PwnZeroParam.value PwnZeroParam.MODE) [PwnMode.value mode].

Definition set_handshakes (self : PwnZero) (handshakesInfo : pystr) : M bool :=
  let data := _str_to_bytes self handshakesInfo in
  _send_data self (PwnZeroParam.value PwnZeroParam.HANDSHAKES) data.

Definition set_message (self : PwnZero) (message : pystr) : M bool :=
  let data := _str_to_bytes self message in
  _send_data self (PwnZeroParam.value PwnZeroParam.MESSAGE) data.

(** The body of the validation loop of [_send_data]. *)
Definition reject_non_byte (self : PwnZero) (i : Z) : option bool :=
  if negb (_is_byte self i) then Some false else None.

(** The frame of a parameter and a payload as the protocol document words it
    (start marker, parameter, payload, end marker); it is compared below with
    the list that [_send_data] builds by successive appends. *)
Definition frame (param : Z) (payload : list Z) : list Z :=
  [0x02; param] ++ payload ++ [0x03].

(** What [_send_data] does once both checks passed: one write of the whole
    frame, then the comparison of the reported count with the length. *)
Definition write_frame (self : PwnZero) (param : Z) (args : list Z) : M bool :=
  written <- Serial_write (_serialConn self) (frame param args) ;;
  ret (written =? len (frame param args)).

(** The public per-frame API as one type, to speak of every [set_*] method
    at once: a constructor per method, carrying the method's argument. *)
Inductive setter : Set :=
| Set_face (face : PwnFace.t)
| Set_name (name : pystr)
| Set_channel (channelInfo : pystr)
| Set_aps (apsInfo : pystr)
| Set_uptime (uptimeInfo : pystr)
| Set_friend
| Set_mode (mode : PwnMode.t)
| Set_handshakes (handshakesInfo : pystr)
| Set_message (message : pystr).

Definition call (self : PwnZero) (c : setter) : M bool :=
  match c with
  | Set_face face => set_face self face
  | Set_name name => set_name self name
  | Set_channel channelInfo => set_channel self channelInfo
  | Set_aps apsInfo => set_aps self apsInfo
  | Set_uptime uptimeInfo => set_uptime self uptimeInfo
  | Set_friend => set_friend self
  | Set_mode mode => set_mode self mode
  | Set_handshakes handshakesInfo => set_handshakes self handshakesInfo
  | Set_message message => set_message self message
  end.

End Plugin.

(** The frame each public operation has to transmit, worded after the
    protocol description and not after the code: the start marker 0x02, the
    parameter identifier of the operation, the payload (the face or mode
    code, or the code points of the string, one per character) and the end
    marker 0x03.  [set_friend] transmits nothing.  The [set_*] methods are
    compared with it below. *)
Definition requested_frame (c : setter) : option (list Z) :=
  match c with
  | Set_face face => Some ([0x02; 4] ++ [PwnFace.value face] ++ [0x03])
  | Set_name name => Some ([0x02; 5] ++ map ord name ++ [0x03])
  | Set_channel channelInfo => Some ([0x02; 6] ++ map ord channelInfo ++ [0x03])
  | Set_aps apsInfo => Some ([0x02; 7] ++ map ord apsInfo ++ [0x03])
  | Set_uptime uptimeInfo => Some ([0x02; 8] ++ map ord uptimeInfo ++ [0x03])
  | Set_friend => None
  | Set_mode mode => Some ([0x02; 10] ++ [PwnMode.value mode] ++ [0x03])
  | Set_handshakes handshakesInfo =>
      Some ([0x02; 11] ++ map ord handshakesInfo ++ [0x03])
  | Set_message message => Some ([0x02; 12] ++ map ord message ++ [0x03])
  end.

(** ** Transport stubs

    Concrete devices, used to run the code on given inputs. *)

(** Opens every port and reports every write as complete. *)
Definition full_driver : SerialDriver :=
  {| os_open := fun _ _ _ => Opened;
     os_write := fun _ data => Wrote (len data) |}.

(** Opens every port and reports one byte less than requested. *)
Definition short_driver : SerialDriver :=
  {| os_open := fun _ _ _ => Opened;
     os_write := fun _ data => Wrote (len data - 1) |}.


(** No port can be opened. *)
Definition absent_driver : SerialDriver :=
  {| os_open := fun _ port _ =>
       OpenFailed (Exn SerialException (py "could not open port")) ;
     os_write := fun _ data => Wrote (len data) |}.

(** The default arguments of the constructor. *)
Definition default_port : pystr := py "/dev/serial0".
Definition default_baud : Z := 115200.

(** The object a successful [PwnZero()] yields. *)
Definition plugin0 : PwnZero :=
  {| _port := default_port; _baud := default_baud;
     _serialConn := {| port := default_port; baudrate := default_baud;
                       is_open := true |} |}.

(** [plugin0] after [close()]. *)
Definition plugin0_closed : PwnZero :=
  {| _port := default_port; _baud := default_baud;
     _serialConn := {| port := default_port; baudrate := default_baud;
                       is_open := false |} |}.

(** ** The UI callbacks (source lines 240 to 326)

    [on_ui_update] reads the display state of the host through [ui.get] and
    forwards it with the [set_*] methods.  The values it meets are dynamic:
    they are modelled by [pyval] ([None], strings, ints, tuples and lists).
    Two built-ins whose full definition rests on the Unicode tables, [repr]
    of a string and [str.upper], and the face constants of the module
    [pwnagotchi.ui.faces], which is not part of the repository, are taken
    as parameters. *)

#[warnings="-register-all"]
Inductive pyval : Set :=
| VNone
| VStr (s : pystr)
| VInt (i : Z)
| VTuple (items : list pyval)
| VList (items : list pyval).

Class Builtins : Type := {
  repr_str : pystr -> pystr;
  str_upper : pystr -> pystr
}.

(** [a == b] on two strings. *)
Fixpoint pystr_eqb (a b : pystr) : bool :=
  match a, b with
  | [], [] => true
  | x :: a', y :: b' => N.eqb x y && pystr_eqb a' b'
  | _, _ => false
  end.

(** [sep.join(parts)]. *)
Fixpoint py_join (sep : pystr) (parts : list pystr) : pystr :=
  match parts with
  | [] => []
  | [p] => p
  | p :: rest => p ++ sep ++ py_join sep rest
  end.

Section Values.

Context {bi : Builtins}.

(** [repr(v)]. *)
Fixpoint py_repr (v : pyval) : pystr :=
  match v with
  | VNone => py "None"
  | VStr s => repr_str s
  | VInt i => str_int i
  | VTuple items =>
      py "(" ++ py_join (py ", ") (map py_repr items)
        ++ (match items with [_] => py "," | _ => [] end) ++ py ")"
  | VList items => py "[" ++ py_join (py ", ") (map py_repr items) ++ py "]"
  end.

(** [str(v)], which is also what an f-string field [{v}] prints. *)
Definition py_str (v : pyval) : pystr :=
  match v with
  | VStr s => s
  | _ => py_repr v
  end.

End Values.

(** [v is None]. *)
Definition is_None (v : pyval) : bool :=
  match v with
  | VNone => true
  | _ => false
  end.

(** [isinstance(v, str)]. *)
Definition isinstance_str (v : pyval) : bool :=
  match v with
  | VStr _ => true
  | _ => false
  end.

(** [isinstance(v, (tuple, list))]. *)
Definition isinstance_tuple_list (v : pyval) : bool :=
  match v with
  | VTuple _ | VList _ => true
  | _ => false
  end.

(** The items of a tuple or list. *)
Definition items_of (v : pyval) : list pyval :=
  match v with
  | VTuple items | VList items => items
  | _ => []
  end.

(** [v[i]] where the index is known to be in range. *)
Definition getitem (v : pyval) (i : nat) : pyval := nth i (items_of v) VNone.

(** A value can be a dict key unless a list occurs in it. *)
Fixpoint hashable (v : pyval) : bool :=
  match v with
  | VList _ => false
  | VTuple items => forallb hashable items
  | _ => true
  end.

(** [s.replace(old, new)] for a one-character [old]. *)
Definition replace1 (s : pystr) (old : pychar) (new : pystr) : pystr :=
  flat_map (fun c => if N.eqb c old then new else [c]) s.

(** The code point of the greater-than sign. *)
Definition gt_sign : pychar := 62%N.

(** The UI object: [ui.get(key)], [None] for a key it does not hold. *)
Definition View : Set := pystr -> pyval.

Definition ui_get (ui : View) (key : pystr) : pyval := ui key.

(** The face constants of [pwnagotchi.ui.faces] the plugin refers to. *)
Module faces.
Class t : Set := {
  LOOK_R : pystr;
  LOOK_L : pystr;
  LOOK_R_HAPPY : pystr;
  LOOK_L_HAPPY : pystr;
  SLEEP : pystr;
  SLEEP2 : pystr;
  AWAKE : pystr;
  BORED : pystr;
  INTENSE : pystr;
  COOL : pystr;
  HAPPY : pystr;
  GRATEFUL : pystr;
  EXCITED : pystr;
  MOTIVATED : pystr;
  DEMOTIVATED : pystr;
  SMART : pystr;
  LONELY : pystr;
  SAD : pystr;
  ANGRY : pystr;
  FRIEND : pystr;
  BROKEN : pystr;
  DEBUG : pystr;
  UPLOAD : pystr;
  UPLOAD1 : pystr;
  UPLOAD2 : pystr
}.
End faces.

(** A dict with string keys, in insertion order, one entry per key. *)
Definition dict (V : Type) : Type := list (pystr * V).

(** [d[k] = v]: the value of an existing key is replaced in place. *)
Fixpoint dict_set {V : Type} (d : dict V) (k : pystr) (v : V) : dict V :=
  match d with
  | [] => [(k, v)]
  | (k', v') :: d' =>
      if pystr_eqb k k' then (k', v) :: d' else (k', v') :: dict_set d' k v
  end.

(** A dict display [{k1: v1, k2: v2, ...}]: the items are stored left to
    right, so of two equal keys the later value stays. *)
Definition dict_literal {V : Type} (items : list (pystr * V)) : dict V :=
  fold_left (fun d kv => dict_set d (fst kv) (snd kv)) items [].

Fixpoint dict_find {V : Type} (d : dict V) (k : pystr) : option V :=
  match d with
  | [] => None
  | (k', v) :: d' => if pystr_eqb k k' then Some v else dict_find d' k
  end.

(** What [on_ui_update] can raise: an exception of a [set_*] call, or the
    [TypeError] of a dict lookup with an unhashable key. *)
Inductive pyexn : Set :=
| FromSend (e : exn)
| TypeError (msg : pystr).

Inductive outcome (A : Type) : Type :=
| Returned (a : A)
| Raised (e : pyexn).
Arguments Returned {A} a.
Arguments Raised {A} e.

Definition U (A : Type) : Type := World -> outcome A * World.

Definition uret {A : Type} (a : A) : U A := fun w => (Returned a, w).

Definition ubind {A B : Type} (m : U A) (k : A -> U B) : U B :=
  fun w =>
    match m w with
    | (Returned a, w') => k a w'
    | (Raised e, w') => (Raised e, w')
    end.

Notation "x <~ m ;; k" := (ubind m (fun x => k))
  (at level 61, m at next level, right associativity) : py_scope.

(** An expression statement: the call is made and its value dropped. *)
Definition stmt {A : Type} (m : M A) : U unit :=
  fun w =>
    match m w with
    | (Ret _, w') => (Returned tt, w')
    | (Raise e, w') => (Raised (FromSend e), w')
    end.

(** The value a lookup of a hashable [key] yields: the keys are strings, so
    a key of another type is absent. *)
Definition dict_lookup {V : Type} (d : dict V) (key : pyval) (default : V) : V :=
  match key with
  | VStr s =>
      match dict_find d s with
      | Some v => v
      | None => default
      end
  | _ => default
  end.

Definition unhashable : pyexn := TypeError (py "unhashable type: 'list'").

(** [d.get(key, default)]: the key is hashed first. *)
Definition dict_get_default {V : Type} (d : dict V) (key : pyval) (default : V)
  : U V :=
  if hashable key then uret (dict_lookup d key default)
  else fun w => (Raised unhashable, w).

(** [d.get(key)]: [None] when the key is absent. *)
Definition dict_get {V : Type} (d : dict V) (key : pyval) : U (option V) :=
  dict_get_default (map (fun kv => (fst kv, Some (snd kv))) d) key None.

Section Callbacks.

Context {drv : SerialDriver} {bi : Builtins} {fc : faces.t}.

Definition on_ui_setup (self : PwnZero) (ui : View) : U unit :=
  uret tt.

Definition on_ui_update (self : PwnZero) (ui : View) : U unit :=
  (* Status message *)
  let status := ui_get ui (py "status") in
  _ <~ (if negb (is_None status)
        then stmt (set_message self (py_str status))
        else uret tt) ;;
  (* Mode mapping *)
  let mode_str := ui_get ui (py "mode") in
  let mode_key :=
    match mode_str with
    | VStr s => VStr (str_upper s)
    | _ => VNone
    end in
  let mode_mapping :=
    dict_literal
      [(py "AI", PwnMode.AI);
       (py "AUTO", PwnMode.AUTO);
       (py "MANUAL", PwnMode.MANU);
       (py "MANU", PwnMode.MANU)] in
  mode <~ dict_get mode_mapping mode_key ;;
  _ <~ match mode with
       | Some mode => stmt (set_mode self mode)
       | None => uret tt
       end ;;
  (* Channel *)
  let channel := ui_get ui (py "channel") in
  _ <~ (if negb (is_None channel)
        then stmt (set_channel self (py_str channel))
        else uret tt) ;;
  (* Uptime *)
  let uptime := ui_get ui (py "uptime") in
  _ <~ (if negb (is_None uptime)
        then stmt (set_uptime self (py_str uptime))
        else uret tt) ;;
  (* APS (could be tuple or string) *)
  let aps := ui_get ui (py "aps") in
  let aps_str :=
    if isinstance_tuple_list aps && (2 <=? len (items_of aps))
    then py_str (getitem aps 0) ++ py " (" ++ py_str (getitem aps 1) ++ py ")"
    else if negb (is_None aps) then py_str aps else py "" in
  _ <~ stmt (set_aps self aps_str) ;;
  (* Name (sanitize > char) *)
  let name := ui_get ui (py "name") in
  _ <~ (if negb (is_None name)
        then stmt (set_name self (replace1 (py_str name) gt_sign (py "")))
        else uret tt) ;;
  (* Face mapping (fallback to default face) *)
  let face := ui_get ui (py "face") in
  let face_mapping :=
    dict_literal
      [(faces.LOOK_R, PwnFace.LOOK_R);
       (faces.LOOK_L, PwnFace.LOOK_L);
       (faces.LOOK_R_HAPPY, PwnFace.LOOK_R_HAPPY);
       (faces.LOOK_L_HAPPY, PwnFace.LOOK_L_HAPPY);
       (faces.SLEEP, PwnFace.SLEEP);
       (faces.SLEEP2, PwnFace.SLEEP2);
       (faces.AWAKE, PwnFace.AWAKE);
       (faces.BORED, PwnFace.BORED);
       (faces.INTENSE, PwnFace.INTENSE);
       (faces.COOL, PwnFace.COOL);
       (faces.HAPPY, PwnFace.HAPPY);
       (faces.GRATEFUL, PwnFace.GRATEFUL);
       (faces.EXCITED, PwnFace.EXCITED);
       (faces.MOTIVATED, PwnFace.MOTIVATED);
       (faces.DEMOTIVATED, PwnFace.DEMOTIVATED);
       (faces.SMART, PwnFace.SMART);
       (faces.LONELY, PwnFace.LONELY);
       (faces.SAD, PwnFace.SAD);
       (faces.ANGRY, PwnFace.ANGRY);
       (faces.FRIEND, PwnFace.FRIEND);
       (faces.BROKEN, PwnFace.BROKEN);
       (faces.DEBUG, PwnFace.DEBUG);
       (faces.UPLOAD, PwnFace.UPLOAD);
       (faces.UPLOAD1, PwnFace.UPLOAD1);
       (faces.UPLOAD2, PwnFace.UPLOAD2)] in
  face_enum <~ dict_get_default face_mapping face PwnFace.DEFAULT_FACE ;;
  _ <~ stmt (set_face self face_enum) ;;
  (* Handshakes (could be tuple or string) *)
  let shakes := ui_get ui (py "shakes") in
  let shakes_str :=
    if isinstance_tuple_list shakes && (2 <=? len (items_of shakes))
    then py_str (getitem shakes 0) ++ py " (" ++ py_str (getitem shakes 1)
           ++ py ")"
    else if negb (is_None shakes) then py_str shakes else py "" in
  stmt (set_handshakes self shakes_str).

End Callbacks.

(** ** Notions used to state the properties *)

(** The byte stream the device was handed: the data of the writes, in order. *)
Definition wire (w : World) : list Z :=
  flat_map (fun ev => match ev with EvWrite data => data | _ => [] end) w.

(** A connection on which every write is accepted: the device reports a
    count (possibly short) whatever the history and the data. *)
Definition never_fails (drv : SerialDriver) : Prop :=
  forall (w : World) (data : list Z), exists n : Z, os_write w data = Wrote n.

(** The event a send of [param] and [args] adds to the history on the
    object [self], whatever the device answers: the write of the frame when
    the connection is open and both checks pass, nothing otherwise. *)
Definition sent (self : PwnZero) (param : Z) (args : list Z) : list event :=
  if is_open (_serialConn self)
     && (_is_byte self param && forallb (_is_byte self) args)
  then [EvWrite (frame param args)]
  else [].

(** Statements run one after the other, up to the first that raises. *)
Definition run_steps (steps : list (U unit)) : U unit :=
  fold_right (fun s k => _ <~ s ;; k) (uret tt) steps.

(** A statement that adds the events [evs], whether it returns or raises. *)
Definition step_adds (s : U unit) (evs : list event) : Prop :=
  forall w : World, exists r : outcome unit, s w = (r, w ++ evs).

(** A statement that returns after adding the events [evs]. *)
Definition step_returns (s : U unit) (evs : list event) : Prop :=
  forall w : World, s w = (Returned tt, w ++ evs).

(** A history grew by at most one frame of parameter [p]. *)
Definition at_most_frame (p : Z) (evs : list event) : Prop :=
  evs = []
  \/ exists payload : list Z,
       evs = [EvWrite ([0x02; p] ++ payload ++ [0x03])]
       /\ Forall (fun b => 0 <= b < 256) payload.

Section UpdateSteps.

Context {drv : SerialDriver} {bi : Builtins} {fc : faces.t}.

(** The two dict displays of [on_ui_update]. *)
Definition mode_mapping : dict PwnMode.t :=
  dict_literal
    [(py "AI", PwnMode.AI);
     (py "AUTO", PwnMode.AUTO);
     (py "MANUAL", PwnMode.MANU);
     (py "MANU", PwnMode.MANU)].

(** The items of the face table, in the order of the source. *)
Definition face_items : list (pystr * PwnFace.t) :=
  [(faces.LOOK_R, PwnFace.LOOK_R);
     (faces.LOOK_L, PwnFace.LOOK_L);
     (faces.LOOK_R_HAPPY, PwnFace.LOOK_R_HAPPY);
     (faces.LOOK_L_HAPPY, PwnFace.LOOK_L_HAPPY);
     (faces.SLEEP, PwnFace.SLEEP);
     (faces.SLEEP2, PwnFace.SLEEP2);
     (faces.AWAKE, PwnFace.AWAKE);
     (faces.BORED, PwnFace.BORED);
     (faces.INTENSE, PwnFace.INTENSE);
     (faces.COOL, PwnFace.COOL);
     (faces.HAPPY, PwnFace.HAPPY);
     (faces.GRATEFUL, PwnFace.GRATEFUL);
     (faces.EXCITED, PwnFace.EXCITED);
     (faces.MOTIVATED, PwnFace.MOTIVATED);
     (faces.DEMOTIVATED, PwnFace.DEMOTIVATED);
     (faces.SMART, PwnFace.SMART);
     (faces.LONELY, PwnFace.LONELY);
     (faces.SAD, PwnFace.SAD);
     (faces.ANGRY, PwnFace.ANGRY);
     (faces.FRIEND, PwnFace.FRIEND);
     (faces.BROKEN, PwnFace.BROKEN);
     (faces.DEBUG, PwnFace.DEBUG);
     (faces.UPLOAD, PwnFace.UPLOAD);
     (faces.UPLOAD1, PwnFace.UPLOAD1);
     (faces.UPLOAD2, PwnFace.UPLOAD2)].

Definition face_mapping : dict PwnFace.t := dict_literal face_items.

(** The text sent for [aps] and for [shakes]. *)
Definition count_text (v : pyval) : pystr :=
  if isinstance_tuple_list v && (2 <=? len (items_of v))
  then py_str (getitem v 0) ++ py " (" ++ py_str (getitem v 1) ++ py ")"
  else if negb (is_None v) then py_str v else py "".

(** The key [on_ui_update] looks the mode up with. *)
Definition mode_key_of (v : pyval) : pyval :=
  match v with
  | VStr s => VStr (str_upper s)
  | _ => VNone
  end.

(** The mode [on_ui_update] finds for the value of the key [mode]. *)
Definition mode_of (v : pyval) : option PwnMode.t :=
  dict_lookup (map (fun kv => (fst kv, Some (snd kv))) mode_mapping)
    (mode_key_of v) None.

(** The eight statements of [on_ui_update], in order. *)
Definition step_text (self : PwnZero) (v : pyval) (set : pystr -> M bool)
  : U unit :=
  if negb (is_None v) then stmt (set (py_str v)) else uret tt.

Definition step_mode (self : PwnZero) (v : pyval) : U unit :=
  mode <~ dict_get mode_mapping (mode_key_of v) ;;
  match mode with
  | Some mode => stmt (set_mode self mode)
  | None => uret tt
  end.

Definition step_name (self : PwnZero) (v : pyval) : U unit :=
  if negb (is_None v)
  then stmt (set_name self (replace1 (py_str v) gt_sign (py "")))
  else uret tt.

Definition step_face (self : PwnZero) (v : pyval) : U unit :=
  face_enum <~ dict_get_default face_mapping v PwnFace.DEFAULT_FACE ;;
  stmt (set_face self face_enum).

Definition update_steps (self : PwnZero) (ui : View) : list (U unit) :=
  [step_text self (ui_get ui (py "status")) (set_message self);
   step_mode self (ui_get ui (py "mode"));
   step_text self (ui_get ui (py "channel")) (set_channel self);
   step_text self (ui_get ui (py "uptime")) (set_uptime self);
   stmt (set_aps self (count_text (ui_get ui (py "aps"))));
   step_name self (ui_get ui (py "name"));
   step_face self (ui_get ui (py "face"));
   stmt (set_handshakes self (count_text (ui_get ui (py "shakes"))))].

(** What each of the eight statements adds to the history. *)
Definition text_events (self : PwnZero) (p : PwnZeroParam.t) (v : pyval)
  : list event :=
  if negb (is_None v)
  then sent self (PwnZeroParam.value p) (_str_to_bytes self (py_str v))
  else [].

Definition mode_events (self : PwnZero) (v : pyval) : list event :=
  match mode_of v with
  | Some mode =>
      sent self (PwnZeroParam.value PwnZeroParam.MODE) [PwnMode.value mode]
  | None => []
  end.

Definition name_events (self : PwnZero) (v : pyval) : list event :=
  if negb (is_None v)
  then sent self (PwnZeroParam.value PwnZeroParam.NAME)
         (_str_to_bytes self (replace1 (py_str v) gt_sign (py "")))
  else [].

Definition face_events (self : PwnZero) (v : pyval) : list event :=
  if hashable v
  then sent self (PwnZeroParam.value PwnZeroParam.FACE)
         [PwnFace.value (dict_lookup face_mapping v PwnFace.DEFAULT_FACE)]
  else [].

Definition update_events (self : PwnZero) (ui : View) : list (list event) :=
  [text_events self PwnZeroParam.MESSAGE (ui_get ui (py "status"));
   mode_events self (ui_get ui (py "mode"));
   text_events self PwnZeroParam.CHANNEL (ui_get ui (py "channel"));
   text_events self PwnZeroParam.UPTIME (ui_get ui (py "uptime"));
   sent self (PwnZeroParam.value PwnZeroParam.APS)
     (_str_to_bytes self (count_text (ui_get ui (py "aps"))));
   name_events self (ui_get ui (py "name"));
   face_events self (ui_get ui (py "face"));
   sent self (PwnZeroParam.value PwnZeroParam.HANDSHAKES)
     (_str_to_bytes self (count_text (ui_get ui (py "shakes"))))].

End UpdateSteps.

Arguments face_mapping {fc} : simpl never.
Arguments mode_mapping : simpl never.

(** ** Stand-ins for the parameters of the callbacks *)

(** [str.upper] on the letters a to z, other characters kept; [repr] of a
    string as the string between single quotes.  They agree with the
    built-ins on the plain ASCII strings used below. *)
Definition ascii_upper (s : pystr) : pystr :=
  map (fun c => if (97 <=? c)%N && (c <=? 122)%N then (c - 32)%N else c) s.

Definition plain_builtins : Builtins :=
  {| repr_str := fun s => py "'" ++ s ++ py "'";
     str_upper := ascii_upper |}.

(** The stock faces of the host, as code points. *)
Definition stock_faces : faces.t :=
  {| faces.LOOK_R := [40; 32; 9862; 95; 9862; 41]%N;
     faces.LOOK_L := [40; 9737; 95; 9737; 32; 41]%N;
     faces.LOOK_R_HAPPY := [40; 32; 9685; 8255; 9685; 41]%N;
     faces.LOOK_L_HAPPY := [40; 9685; 8255; 9685; 32; 41]%N;
     faces.SLEEP := [40; 8640; 8255; 8255; 8636; 41]%N;
     faces.SLEEP2 := [40; 8790; 8255; 8255; 8790; 41]%N;
     faces.AWAKE := [40; 9685; 8255; 8255; 9685; 41]%N;
     faces.BORED := [40; 45; 95; 95; 45; 41]%N;
     faces.INTENSE := [40; 176; 9603; 9603; 176; 41]%N;
     faces.COOL := [40; 8976; 9632; 95; 9632; 41]%N;
     faces.HAPPY := [40; 8226; 8255; 8255; 8226; 41]%N;
     faces.GRATEFUL := [40; 94; 8255; 8255; 94; 41]%N;
     faces.EXCITED := [40; 7508; 9697; 9697; 7508; 41]%N;
     faces.MOTIVATED := [40; 9788; 8255; 8255; 9788; 41]%N;
     faces.DEMOTIVATED := [40; 8790; 95; 95; 8790; 41]%N;
     faces.SMART := [40; 10012; 8255; 8255; 10012; 41]%N;
     faces.LONELY := [40; 1576; 95; 95; 1576; 41]%N;
     faces.SAD := [40; 9573; 9729; 9573; 32; 41]%N;
     faces.ANGRY := [40; 45; 95; 45; 39; 41]%N;
     faces.FRIEND := [40; 9829; 8255; 8255; 9829; 41]%N;
     faces.BROKEN := [40; 9747; 8255; 8255; 9747; 41]%N;
     faces.DEBUG := [40; 35; 95; 95; 35; 41]%N;
     faces.UPLOAD := [40; 49; 95; 95; 48; 41]%N;
     faces.UPLOAD1 := [40; 49; 95; 95; 49; 41]%N;
     faces.UPLOAD2 := [40; 48; 95; 95; 49; 41]%N |}.

(** A UI state given by its items. *)
Definition view_of (items : list (pystr * pyval)) : View :=
  fun key =>
    match dict_find items key with
    | Some v => v
    | None => VNone
    end.

(** A UI state with every key set, the name still with its prompt sign. *)
Definition ui0 : View :=
  view_of
    [(py "status", VStr (py "Hi"));
     (py "mode", VStr (py "auto"));
     (py "channel", VInt 6);
     (py "uptime", VStr (py "00:01:02"));
     (py "aps", VTuple [VStr (py "3"); VStr (py "10")]);
     (py "name", VStr (py "pwn> "));
     (py "face", VStr (faces.HAPPY (t := stock_faces)));
     (py "shakes", VList [VStr (py "0"); VStr (py "1")])].


(** A UI state that holds no key. *)
Definition ui_empty : View := view_of [].

(** * Properties *)

(** ** Lists and loops *)

Lemma fold_append_app {A : Type} (xs acc : list A) :
  fold_left (fun data x => append data x) xs acc = acc ++ xs.
Proof.
  revert acc. induction xs as [|x xs IH]; intros acc; simpl.
  - now rewrite app_nil_r.
  - rewrite IH. unfold append. now rewrite <- app_assoc.
Qed.

Lemma fold_append_map {A B : Type} (f : A -> B) (xs : list A) (acc : list B) :
  fold_left (fun data x => append data (f x)) xs acc = acc ++ map f xs.
Proof.
  revert acc. induction xs as [|x xs IH]; intros acc; simpl.
  - now rewrite app_nil_r.
  - rewrite IH. unfold append. now rewrite <- app_assoc.
Qed.

Lemma len_app {A : Type} (xs ys : list A) : len (xs ++ ys) = len xs + len ys.
Proof. unfold len. rewrite length_app. lia. Qed.

Lemma len_cons {A : Type} (x : A) (xs : list A) : len (x :: xs) = len xs + 1.
Proof. unfold len. simpl List.length. lia. Qed.

(** ** The byte predicate *)

Lemma is_byte_true (self : PwnZero) (i : Z) :
  _is_byte self i = true <-> 0 <= i < 256.
Proof.
  unfold _is_byte. rewrite andb_true_iff, Z.leb_le, Z.ltb_lt. tauto.
Qed.

Lemma is_byte_false (self : PwnZero) (i : Z) :
  _is_byte self i = false <-> i < 0 \/ 256 <= i.
Proof.
  unfold _is_byte. rewrite andb_false_iff, Z.leb_gt, Z.ltb_ge. tauto.
Qed.

(** C6: [_is_byte i] is true exactly when [0 <= i < 256], false exactly
    otherwise; it is a total function of [i] alone, with a plain [bool]
    result that does not depend on the object it is called on. *)
Theorem C6_is_byte_iff_in_range (self : PwnZero) (i : Z) :
  (_is_byte self i = true <-> 0 <= i < 256)
  /\ (_is_byte self i = false <-> i < 0 \/ 256 <= i)
  /\ (forall other : PwnZero, _is_byte other i = _is_byte self i).
Proof.
  split; [apply is_byte_true|]. split; [apply is_byte_false|]. reflexivity.
Qed.

(** ** The string helper *)

Lemma str_to_bytes_map (self : PwnZero) (s : pystr) :
  _str_to_bytes self s = map ord s.
Proof. unfold _str_to_bytes. now rewrite fold_append_map. Qed.

(** C7: [_str_to_bytes s] is the list of the code points of the characters
    of [s], in order and one per character; on "AB" it is [65, 66] and on
    the empty string it is the empty list. *)
Theorem C7_str_to_bytes_code_points (self : PwnZero) (s : pystr) :
  _str_to_bytes self s = map ord s
  /\ List.length (_str_to_bytes self s) = List.length s
  /\ (forall (k : nat) (c : pychar),
        nth_error s k = Some c <->
        nth_error (_str_to_bytes self s) k = Some (ord c))
  /\ _str_to_bytes self (py "AB") = [65; 66]
  /\ _str_to_bytes self (py "") = [].
Proof.
  rewrite str_to_bytes_map. split; [reflexivity|].
  split; [apply length_map|]. split; [|split; reflexivity].
  intros k c. rewrite nth_error_map. destruct (nth_error s k) as [c'|]; simpl.
  - split; intros E; inversion E as [E'].
    + reflexivity.
    + unfold ord in E'. apply N2Z.inj in E'. now subst.
  - split; discriminate.
Qed.

(** ** The wire constants *)

(** C5: the parameter identifiers are FACE=4 ... MESSAGE=12, the mode values
    are MANU=4, AUTO=5, AI=6, and the 27 faces, taken in definition order,
    carry the values 4, 5, ..., 30, each once. *)
Theorem C5_wire_constants :
  (PwnZeroParam.value PwnZeroParam.FACE = 4
   /\ PwnZeroParam.value PwnZeroParam.NAME = 5
   /\ PwnZeroParam.value PwnZeroParam.CHANNEL = 6
   /\ PwnZeroParam.value PwnZeroParam.APS = 7
   /\ PwnZeroParam.value PwnZeroParam.UPTIME = 8
   /\ PwnZeroParam.value PwnZeroParam.FRIEND = 9
   /\ PwnZeroParam.value PwnZeroParam.MODE = 10
   /\ PwnZeroParam.value PwnZeroParam.HANDSHAKES = 11
   /\ PwnZeroParam.value PwnZeroParam.MESSAGE = 12)
  /\ (PwnMode.value PwnMode.MANU = 4
      /\ PwnMode.value PwnMode.AUTO = 5
      /\ PwnMode.value PwnMode.AI = 6)
  /\ (forall f : PwnFace.t, In f PwnFace.members)
  /\ List.length PwnFace.members = 27%nat
  /\ map PwnFace.value PwnFace.members = map Z.of_nat (seq 4 27)
  /\ (forall p : PwnZeroParam.t, In p PwnZeroParam.members)
  /\ (forall m : PwnMode.t, In m PwnMode.members).
Proof.
  repeat split; try reflexivity.
  - intros f; destruct f; simpl; tauto.
  - intros p; destruct p; simpl; tauto.
  - intros m; destruct m; simpl; tauto.
Qed.

Lemma param_value_range (p : PwnZeroParam.t) : 4 <= PwnZeroParam.value p <= 12.
Proof. destruct p; simpl; lia. Qed.

Lemma mode_value_range (m : PwnMode.t) : 4 <= PwnMode.value m <= 6.
Proof. destruct m; simpl; lia. Qed.

Lemma face_value_range (f : PwnFace.t) : 4 <= PwnFace.value f <= 30.
Proof. destruct f; simpl; lia. Qed.

Section Sending.

Context {drv : SerialDriver}.

(** ** set_friend *)

(** C8: [set_friend] returns [False] on every object, open or closed, and in
    every history, and leaves the history as it was: nothing is encoded and
    nothing is written. *)
Theorem C8_set_friend_false (self : PwnZero) (w : World) :
  set_friend self w = (Ret false, w)
  /\ call self Set_friend w = (Ret false, w).
Proof. split; reflexivity. Qed.

(** ** The validation loop and the frame *)

Lemma for_in_bytes_None (self : PwnZero) (args : list Z) :
  Forall (fun b => _is_byte self b = true) args ->
  for_in args (reject_non_byte self) = None.
Proof.
  induction 1 as [|b args Hb _ IH]; simpl; [reflexivity|].
  unfold reject_non_byte at 1. now rewrite Hb.
Qed.

Lemma for_in_bytes_Some (self : PwnZero) (args : list Z) :
  Exists (fun b => _is_byte self b = false) args ->
  for_in args (reject_non_byte self) = Some false.
Proof.
  induction 1 as [b args Hb|b args _ IH]; simpl; unfold reject_non_byte at 1.
  - now rewrite Hb.
  - destruct (_is_byte self b); simpl; [exact IH|reflexivity].
Qed.

Lemma for_in_bytes_cases (self : PwnZero) (args : list Z) :
  (Forall (fun b => _is_byte self b = true) args
   /\ for_in args (reject_non_byte self) = None)
  \/ (Exists (fun b => _is_byte self b = false) args
      /\ for_in args (reject_non_byte self) = Some false).
Proof.
  induction args as [|b args IH].
  - left. split; [constructor|reflexivity].
  - destruct (_is_byte self b) eqn:Hb.
    + destruct IH as [[Hall Hnone]|[Hex Hsome]].
      * left. split; [now constructor|]. apply for_in_bytes_None. now constructor.
      * right. split; [now apply Exists_cons_tl|].
        apply for_in_bytes_Some. now apply Exists_cons_tl.
    + right. split; [now apply Exists_cons_hd|].
      apply for_in_bytes_Some. now apply Exists_cons_hd.
Qed.

Lemma built_data_is_frame (param : Z) (args : list Z) :
  append (fold_left (fun data arg => append data arg) args
            (append [PROTOCOL_START] param)) PROTOCOL_END
  = frame param args.
Proof.
  rewrite fold_append_app. unfold append, frame, PROTOCOL_START, PROTOCOL_END.
  reflexivity.
Qed.

Lemma frame_all_bytes (self : PwnZero) (param : Z) (args : list Z) :
  _is_byte self param = true ->
  Forall (fun b => _is_byte self b = true) args ->
  forallb (fun b => (0 <=? b) && (b <? 256)) (frame param args) = true.
Proof.
  intros Hp Hargs. unfold frame. simpl. unfold _is_byte in Hp. rewrite Hp. simpl.
  rewrite forallb_app. simpl. rewrite andb_true_r.
  apply forallb_forall. rewrite Forall_forall in Hargs.
  intros b Hb. exact (Hargs b Hb).
Qed.

Lemma send_data_valid (self : PwnZero) (param : Z) (args : list Z) (w : World) :
  _is_byte self param = true ->
  Forall (fun b => _is_byte self b = true) args ->
  _send_data self param args w = write_frame self param args w.
Proof.
  intros Hp Hargs. unfold _send_data. rewrite Hp. simpl negb. cbv iota.
  change (fun i => if negb (_is_byte self i) then Some false else None)
    with (reject_non_byte self).
  rewrite (for_in_bytes_None self args Hargs).
  cbv zeta. rewrite built_data_is_frame.
  unfold write_frame, bind at 1, bytes.
  rewrite (frame_all_bytes self param args Hp Hargs). reflexivity.
Qed.

Lemma send_data_invalid (self : PwnZero) (param : Z) (args : list Z) (w : World) :
  _is_byte self param = false
  \/ Exists (fun b => _is_byte self b = false) args ->
  _send_data self param args w = (Ret false, w).
Proof.
  intros H. unfold _send_data. destruct (_is_byte self param) eqn:Hp; simpl.
  - destruct H as [H|H]; [discriminate|].
    change (fun i => if negb (_is_byte self i) then Some false else None)
      with (reject_non_byte self).
    now rewrite (for_in_bytes_Some self args H).
  - reflexivity.
Qed.

(** ** _send_data on valid input *)

(** C1: when [param] and every element of [args] are bytes, [_send_data]
    builds the frame [0x02, param] ++ args ++ [0x03] and hands exactly that
    frame to one write of the connection, returning whether the reported
    count is the frame's length; on an open connection the frame is the one
    event added to the history.  The frame has [len(args) + 3] elements,
    starts with 0x02, has [param] second, 0x03 last and [args] in between. *)
Theorem C1_send_data_builds_frame
  (self : PwnZero) (param : Z) (args : list Z) (w : World) :
  _is_byte self param = true ->
  Forall (fun b => _is_byte self b = true) args ->
  let fr := [0x02; param] ++ args ++ [0x03] in
  _send_data self param args w
  = (written <- Serial_write (_serialConn self) fr ;;
     ret (written =? len args + 3)) w
  /\ (is_open (_serialConn self) = true ->
      snd (_send_data self param args w) = w ++ [EvWrite fr])
  /\ List.length fr = (List.length args + 3)%nat
  /\ nth_error fr 0 = Some 0x02
  /\ nth_error fr 1 = Some param
  /\ nth_error fr (List.length args + 2) = Some 0x03
  /\ firstn (List.length args) (skipn 2 fr) = args.
Proof.
  intros Hp Hargs fr.
  assert (Hlen : len fr = len args + 3).
  { unfold fr. rewrite len_app, len_app. unfold len. simpl List.length. lia. }
  assert (Hrun : _send_data self param args w = write_frame self param args w)
    by now apply send_data_valid.
  repeat split.
  - rewrite Hrun. unfold write_frame. fold fr. change (frame param args) with fr.
    now rewrite Hlen.
  - intros Hopen. rewrite Hrun. unfold write_frame, bind, Serial_write.
    rewrite Hopen. change (frame param args) with fr.
    destruct (os_write w fr); reflexivity.
  - unfold len in Hlen. lia.
  - change fr with (0x02 :: (param :: args) ++ [0x03]).
    replace (List.length args + 2)%nat
      with (S (List.length (param :: args) + 0)) by (simpl; lia).
    cbn [nth_error]. now rewrite nth_error_app2, Nat.add_comm, Nat.add_sub by lia.
  - change (skipn 2 fr) with (args ++ [0x03]).
    rewrite firstn_app, Nat.sub_diag, firstn_all. simpl. apply app_nil_r.
Qed.

(** ** _send_data on invalid input *)

(** C3: when [param] or some element of [args] is not a byte, [_send_data]
    returns [False] and the history is unchanged: no frame reaches the
    connection.  The object is untouched, so a later send behaves as if the
    rejected one had not been made. *)
Theorem C3_send_data_rejects_non_bytes
  (self : PwnZero) (param : Z) (args : list Z) (w : World) :
  _is_byte self param = false
  \/ Exists (fun b => _is_byte self b = false) args ->
  _send_data self param args w = (Ret false, w)
  /\ (forall (param' : Z) (args' : list Z),
        (_ <- _send_data self param args ;; _send_data self param' args') w
        = _send_data self param' args' w).
Proof.
  intros H. pose proof (send_data_invalid self param args w H) as E.
  split; [exact E|]. intros param' args'. unfold bind at 1. now rewrite E.
Qed.

(** ** The public methods *)

Lemma call_cases (self : PwnZero) (c : setter) :
  c = Set_friend
  \/ exists (p : PwnZeroParam.t) (args : list Z),
       call self c = _send_data self (PwnZeroParam.value p) args.
Proof.
  destruct c; [right|right|right|right|right|left|right|right|right];
    try reflexivity; eexists; eexists; reflexivity.
Qed.

Lemma history_not_extended (w : World) (ev : event) : w <> w ++ [ev].
Proof.
  intros E. apply (f_equal (@List.length event)) in E.
  rewrite length_app in E. simpl in E. lia.
Qed.

Lemma send_data_outcomes (self : PwnZero) (param : Z) (args : list Z) (w : World) :
  _send_data self param args w = (Ret false, w)
  \/ (_is_byte self param = true
      /\ Forall (fun b => _is_byte self b = true) args
      /\ _send_data self param args w = write_frame self param args w).
Proof.
  destruct (_is_byte self param) eqn:Hp.
  - destruct (for_in_bytes_cases self args) as [[Hall _]|[Hex _]].
    + right. split; [reflexivity|]. split; [exact Hall|].
      now apply send_data_valid.
    + left. apply send_data_invalid. now right.
  - left. apply send_data_invalid. now left.
Qed.

Lemma write_frame_outcomes (self : PwnZero) (param : Z) (args : list Z) (w : World) :
  (is_open (_serialConn self) = false
   /\ write_frame self param args w = (Raise port_not_open, w))
  \/ (is_open (_serialConn self) = true
      /\ exists n, os_write w (frame param args) = Wrote n
         /\ write_frame self param args w
            = (Ret (n =? len (frame param args)),
               w ++ [EvWrite (frame param args)]))
  \/ (is_open (_serialConn self) = true
      /\ exists e, os_write w (frame param args) = WriteFailed e
         /\ write_frame self param args w
            = (Raise e, w ++ [EvWrite (frame param args)])).
Proof.
  unfold write_frame, bind, Serial_write.
  destruct (is_open (_serialConn self)).
  - right. destruct (os_write w (frame param args)) as [n|e].
    + left. split; [reflexivity|]. exists n. split; reflexivity.
    + right. split; [reflexivity|]. exists e. split; reflexivity.
  - left. split; reflexivity.
Qed.

Lemma frame_Forall_bytes (self : PwnZero) (param : Z) (args : list Z) :
  _is_byte self param = true ->
  Forall (fun b => _is_byte self b = true) args ->
  Forall (fun b => 0 <= b < 256) (frame param args).
Proof.
  intros Hp Hargs. unfold frame. simpl.
  constructor; [lia|]. constructor; [now apply (is_byte_true self)|].
  apply Forall_app. split.
  - eapply Forall_impl; [|exact Hargs]. intros b. apply is_byte_true.
  - constructor; [lia|constructor].
Qed.

Lemma send_data_true_iff (self : PwnZero) (param : Z) (args : list Z) (w : World) :
  fst (_send_data self param args w) = Ret true
  <-> exists fr : list Z,
        Forall (fun b => 0 <= b < 256) fr
        /\ snd (_send_data self param args w) = w ++ [EvWrite fr]
        /\ os_write w fr = Wrote (len fr).
Proof.
  destruct (send_data_outcomes self param args w) as [E|(Hp & Hargs & E)];
    rewrite E; simpl.
  - split; [discriminate|]. intros (fr & _ & Hw & _).
    now apply history_not_extended in Hw.
  - destruct (write_frame_outcomes self param args w)
      as [[_ R]|[[_ (n & Hn & R)]|[_ (e & He & R)]]]; rewrite R; simpl.
    + split; [discriminate|]. intros (fr & _ & Hw & _).
      now apply history_not_extended in Hw.
    + split.
      * intros Hret. injection Hret as Hret. apply Z.eqb_eq in Hret. subst n.
        exists (frame param args). split; [now apply (frame_Forall_bytes self)|].
        split; [reflexivity|exact Hn].
      * intros (fr & _ & Hw & Hfr). apply app_inv_head in Hw.
        injection Hw as Hw. subst fr. rewrite Hn in Hfr. injection Hfr as Hfr.
        subst n. now rewrite Z.eqb_refl.
    + split; [discriminate|]. intros (fr & _ & Hw & Hfr).
      apply app_inv_head in Hw. injection Hw as Hw. subst fr.
      rewrite He in Hfr. discriminate.
Qed.

Lemma send_data_short_write (self : PwnZero) (param : Z) (args : list Z) (w : World) :
  is_open (_serialConn self) = true ->
  (forall data, exists n, os_write w data = Wrote n /\ n < len data) ->
  fst (_send_data self param args w) = Ret false.
Proof.
  intros Hopen Hshort.
  destruct (send_data_outcomes self param args w) as [E|(_ & _ & E)];
    rewrite E; [reflexivity|].
  destruct (write_frame_outcomes self param args w)
    as [[Hc _]|[[_ (n & Hn & R)]|[_ (e & He & _)]]].
  - congruence.
  - rewrite R. simpl. destruct (Hshort (frame param args)) as (m & Hm & Hlt).
    rewrite Hn in Hm. injection Hm as Hm. subst m.
    f_equal. apply Z.eqb_neq. lia.
  - destruct (Hshort (frame param args)) as (m & Hm & _). congruence.
Qed.

Lemma call_requested (self : PwnZero) (c : setter) :
  (c = Set_friend /\ requested_frame c = None)
  \/ exists (p : PwnZeroParam.t) (args : list Z),
       call self c = _send_data self (PwnZeroParam.value p) args
       /\ requested_frame c = Some (frame (PwnZeroParam.value p) args).
Proof.
  destruct c as [face|s|s|s|s| |mode|s|s];
    [right|right|right|right|right|left|right|right|right];
    try (split; reflexivity).
  - exists PwnZeroParam.FACE, [PwnFace.value face]. split; reflexivity.
  - exists PwnZeroParam.NAME, (_str_to_bytes self s).
    split; [reflexivity|]. now rewrite str_to_bytes_map.
  - exists PwnZeroParam.CHANNEL, (_str_to_bytes self s).
    split; [reflexivity|]. now rewrite str_to_bytes_map.
  - exists PwnZeroParam.APS, (_str_to_bytes self s).
    split; [reflexivity|]. now rewrite str_to_bytes_map.
  - exists PwnZeroParam.UPTIME, (_str_to_bytes self s).
    split; [reflexivity|]. now rewrite str_to_bytes_map.
  - exists PwnZeroParam.MODE, [PwnMode.value mode]. split; reflexivity.
  - exists PwnZeroParam.HANDSHAKES, (_str_to_bytes self s).
    split; [reflexivity|]. now rewrite str_to_bytes_map.
  - exists PwnZeroParam.MESSAGE, (_str_to_bytes self s).
    split; [reflexivity|]. now rewrite str_to_bytes_map.
Qed.

Lemma frame_bytes_inv (self : PwnZero) (param : Z) (args : list Z) :
  Forall (fun b => 0 <= b < 256) (frame param args) ->
  _is_byte self param = true
  /\ Forall (fun b => _is_byte self b = true) args.
Proof.
  unfold frame. simpl. intros H.
  inversion H as [|? ? _ H1]; subst. inversion H1 as [|? ? Hp H2]; subst.
  apply Forall_app in H2. destruct H2 as [Hargs _].
  split; [now apply is_byte_true|].
  eapply Forall_impl; [|exact Hargs]. intros b. apply is_byte_true.
Qed.

Lemma send_data_history (self : PwnZero) (param : Z) (args : list Z) (w : World) :
  Forall (fun b => 0 <= b < 256) (frame param args) ->
  is_open (_serialConn self) = true ->
  snd (_send_data self param args w) = w ++ [EvWrite (frame param args)].
Proof.
  intros Hfr Hopen. destruct (frame_bytes_inv self param args Hfr) as [Hp Hargs].
  rewrite send_data_valid by assumption.
  destruct (write_frame_outcomes self param args w)
    as [[Hc _]|[[_ (n & _ & R)]|[_ (e & _ & R)]]];
    [congruence|now rewrite R|now rewrite R].
Qed.

Lemma send_data_true_requested
  (self : PwnZero) (param : Z) (args : list Z) (w : World) :
  fst (_send_data self param args w) = Ret true
  <-> Forall (fun b => 0 <= b < 256) (frame param args)
      /\ is_open (_serialConn self) = true
      /\ os_write w (frame param args) = Wrote (len (frame param args)).
Proof.
  split.
  - intros Hret.
    destruct (send_data_outcomes self param args w) as [E|(Hp & Hargs & E)];
      rewrite E in Hret; [discriminate Hret|].
    destruct (write_frame_outcomes self param args w)
      as [[_ R]|[[Ho (n & Hn & R)]|[_ (e & _ & R)]]]; rewrite R in Hret;
      [discriminate Hret| |discriminate Hret].
    simpl in Hret. injection Hret as Hret. apply Z.eqb_eq in Hret. subst n.
    split; [now apply (frame_Forall_bytes self)|]. now split.
  - intros (Hfr & Hopen & Hw).
    destruct (frame_bytes_inv self param args Hfr) as [Hp Hargs].
    rewrite send_data_valid by assumption.
    unfold write_frame, bind, Serial_write, ret. rewrite Hopen, Hw.
    cbn [fst]. f_equal. apply Z.eqb_refl.
Qed.

(** C2: a [set_*] method returns [True] exactly when the frame it has to
    transmit for its argument (start marker, its parameter identifier, the
    face or mode code or the code points of the string, end marker) holds
    bytes only, the connection is open, and the count the transport reports
    for that frame is the frame's length; the bytes handed to the transport
    are then, and on every open connection, that very frame.  [set_friend]
    has no frame and never returns [True].  When the transport reports fewer
    bytes than it was given, every [set_*] method returns [False]; when it
    reports exactly the count it was given, [set_mode(AUTO)] returns [True]
    and the bytes it recorded are [0x02, 10, 5, 0x03]. *)
Theorem C2_setter_true_iff_fully_written
  (self : PwnZero) (c : setter) (w : World) :
  (fst (call self c w) = Ret true
   <-> exists fr : list Z,
         requested_frame c = Some fr
         /\ Forall (fun b => 0 <= b < 256) fr
         /\ is_open (_serialConn self) = true
         /\ os_write w fr = Wrote (len fr))
  /\ (forall fr : list Z,
        requested_frame c = Some fr ->
        Forall (fun b => 0 <= b < 256) fr ->
        is_open (_serialConn self) = true ->
        snd (call self c w) = w ++ [EvWrite fr])
  /\ (is_open (_serialConn self) = true ->
      (forall data, exists n, os_write w data = Wrote n /\ n < len data) ->
      fst (call self c w) = Ret false)
  /\ (is_open (_serialConn self) = true ->
      (forall data, os_write w data = Wrote (len data)) ->
      call self (Set_mode PwnMode.AUTO) w
      = (Ret true, w ++ [EvWrite [0x02; 10; 5; 0x03]])).
Proof.
  split; [|split; [|split]].
  - destruct (call_requested self c) as [[-> Hreq]|(p & args & -> & Hreq)].
    + simpl. split; [discriminate|]. intros (fr & Hfr & _). discriminate Hfr.
    + rewrite send_data_true_requested, Hreq. split.
      * intros H. now exists (frame (PwnZeroParam.value p) args).
      * intros (fr & Hfr & H). injection Hfr as <-. exact H.
  - intros fr Hfr Hbytes Hopen.
    destruct (call_requested self c) as [[-> Hreq]|(p & args & -> & Hreq)];
      rewrite Hreq in Hfr; [discriminate Hfr|]. injection Hfr as <-.
    now apply send_data_history.
  - intros Hopen Hshort.
    destruct (call_cases self c) as [->|(p & args & ->)]; [reflexivity|].
    now apply send_data_short_write.
  - intros Hopen Hfull. simpl. unfold set_mode.
    rewrite send_data_valid by (repeat constructor).
    unfold write_frame, bind, Serial_write. rewrite Hopen, Hfull. reflexivity.
Qed.

(** ** Exceptions of the transport *)


(** ** The constructor *)

(** C9: when the device cannot be opened, the constructor raises a
    [RuntimeError] whose message ends with the text of the underlying error,
    after a single open attempt, and returns no object. *)
Theorem C9_init_raises_when_open_fails
  (port : pystr) (baud : Z) (w : World) (e : exn) :
  os_open w port baud = OpenFailed e ->
  __init__ port baud w
  = (Raise (Exn RuntimeError
              (py "Cannot bind to port " ++ port ++ py " with baud "
                 ++ str_int baud ++ py ": " ++ exn_msg e)),
     w ++ [EvOpen port baud])
  /\ (forall self : PwnZero, fst (__init__ port baud w) <> Ret self).
Proof.
  intros Hfail.
  assert (E : __init__ port baud w
              = (Raise (Exn RuntimeError
                          (py "Cannot bind to port " ++ port ++ py " with baud "
                             ++ str_int baud ++ py ": " ++ exn_msg e)),
                 w ++ [EvOpen port baud])).
  { unfold __init__, try_except, bind, Serial_new. now rewrite Hfail. }
  split; [exact E|]. intros self. rewrite E. discriminate.
Qed.

Lemma init_returns_when_open_succeeds (port : pystr) (baud : Z) (w : World) :
  os_open w port baud = Opened ->
  __init__ port baud w
  = (Ret {| _port := port; _baud := baud;
            _serialConn := {| port := port; baudrate := baud; is_open := true |} |},
     w ++ [EvOpen port baud]).
Proof.
  intros Hok. unfold __init__, try_except, bind, Serial_new. now rewrite Hok.
Qed.

(** ** Reachability of the parameter check *)

Lemma forallb_is_byte_true (self : PwnZero) (args : list Z) :
  forallb (_is_byte self) args = true ->
  Forall (fun b => _is_byte self b = true) args.
Proof. intros H. apply Forall_forall. now apply forallb_forall. Qed.

Lemma forallb_is_byte_false (self : PwnZero) (args : list Z) :
  forallb (_is_byte self) args = false ->
  Exists (fun b => _is_byte self b = false) args.
Proof.
  induction args as [|b args IH]; simpl; [discriminate|].
  destruct (_is_byte self b) eqn:Hb; simpl.
  - intros H. apply Exists_cons_tl. now apply IH.
  - intros _. now apply Exists_cons_hd.
Qed.

Lemma non_byte_code_point (self : PwnZero) (s : pystr) :
  Exists (fun b => _is_byte self b = false) (_str_to_bytes self s) ->
  Exists (fun ch => 256 <= ord ch) s.
Proof.
  rewrite str_to_bytes_map. induction s as [|ch s IH]; simpl; intros H.
  - inversion H.
  - inversion H as [b l Hb|b l Hl]; subst.
    + apply Exists_cons_hd. apply is_byte_false in Hb. unfold ord in *. lia.
    + apply Exists_cons_tl. now apply IH.
Qed.

(** C10: every parameter identifier lies in 4..12 and passes the byte check.
    Each [set_*] method other than [set_friend] is a call of [_send_data]
    on the value of one of these identifiers, so that call either writes
    the frame (all payload elements are bytes) or returns [False] because of
    a payload element; and a payload with a non-byte element can only come
    from a string argument holding a code point of 256 or more. *)
Theorem C10_param_check_never_fails (self : PwnZero) (c : setter) :
  (forall p : PwnZeroParam.t,
     4 <= PwnZeroParam.value p <= 12
     /\ _is_byte self (PwnZeroParam.value p) = true)
  /\ (c = Set_friend
      \/ exists (p : PwnZeroParam.t) (args : list Z),
           call self c = _send_data self (PwnZeroParam.value p) args
           /\ (forall w : World,
                 _send_data self (PwnZeroParam.value p) args w
                 = if forallb (_is_byte self) args
                   then write_frame self (PwnZeroParam.value p) args w
                   else (Ret false, w))
           /\ (forallb (_is_byte self) args = false ->
               exists s : pystr,
                 args = _str_to_bytes self s
                 /\ Exists (fun ch => 256 <= ord ch) s
                 /\ (c = Set_name s \/ c = Set_channel s \/ c = Set_aps s
                     \/ c = Set_uptime s \/ c = Set_handshakes s
                     \/ c = Set_message s))).
Proof.
  assert (Hparam : forall p : PwnZeroParam.t,
             4 <= PwnZeroParam.value p <= 12
             /\ _is_byte self (PwnZeroParam.value p) = true).
  { intros p. split; [apply param_value_range|].
    apply is_byte_true. pose proof (param_value_range p). lia. }
  split; [exact Hparam|].
  assert (Hsend : forall (p : PwnZeroParam.t) (args : list Z) (w : World),
             _send_data self (PwnZeroParam.value p) args w
             = if forallb (_is_byte self) args
               then write_frame self (PwnZeroParam.value p) args w
               else (Ret false, w)).
  { intros p args w. destruct (forallb (_is_byte self) args) eqn:Hall.
    - apply send_data_valid; [apply Hparam|now apply forallb_is_byte_true].
    - apply send_data_invalid. right. now apply forallb_is_byte_false. }
  assert (Hstr : forall s : pystr,
             forallb (_is_byte self) (_str_to_bytes self s) = false ->
             Exists (fun ch => 256 <= ord ch) s).
  { intros s H. apply (non_byte_code_point self). now apply forallb_is_byte_false. }
  destruct c as [face|s|s|s|s| |mode|s|s]; [right|right|right|right|right|left|right|right|right];
    try reflexivity.
  - exists PwnZeroParam.FACE, [PwnFace.value face].
    split; [reflexivity|]. split; [apply Hsend|].
    simpl. rewrite andb_true_r. intros H. apply is_byte_false in H.
    pose proof (face_value_range face). lia.
  - exists PwnZeroParam.NAME, (_str_to_bytes self s).
    split; [reflexivity|]. split; [apply Hsend|]. intros H. exists s. auto 10.
  - exists PwnZeroParam.CHANNEL, (_str_to_bytes self s).
    split; [reflexivity|]. split; [apply Hsend|]. intros H. exists s. auto 10.
  - exists PwnZeroParam.APS, (_str_to_bytes self s).
    split; [reflexivity|]. split; [apply Hsend|]. intros H. exists s. auto 10.
  - exists PwnZeroParam.UPTIME, (_str_to_bytes self s).
    split; [reflexivity|]. split; [apply Hsend|]. intros H. exists s. auto 10.
  - exists PwnZeroParam.MODE, [PwnMode.value mode].
    split; [reflexivity|]. split; [apply Hsend|].
    simpl. rewrite andb_true_r. intros H. apply is_byte_false in H.
    pose proof (mode_value_range mode). lia.
  - exists PwnZeroParam.HANDSHAKES, (_str_to_bytes self s).
    split; [reflexivity|]. split; [apply Hsend|]. intros H. exists s. auto 10.
  - exists PwnZeroParam.MESSAGE, (_str_to_bytes self s).
    split; [reflexivity|]. split; [apply Hsend|]. intros H. exists s. auto 10.
Qed.

End Sending.

(** * The code on concrete inputs *)

(** [set_mode(AUTO)] on an open connection that writes everything. *)
Lemma C1_witness_mode_frame :
  _is_byte plugin0 10 = true
  /\ Forall (fun b => _is_byte plugin0 b = true) [5]
  /\ _send_data (drv := full_driver) plugin0 10 [5] []
     = (Ret true, [EvWrite [0x02; 10; 5; 0x03]])
  /\ snd (_send_data (drv := full_driver) plugin0 10 [5] [])
     = [EvWrite [0x02; 10; 5; 0x03]].
Proof.
  assert (Hp : _is_byte plugin0 10 = true) by reflexivity.
  assert (Hargs : Forall (fun b => _is_byte plugin0 b = true) [5])
    by (constructor; [reflexivity|constructor]).
  pose proof (C1_send_data_builds_frame (drv := full_driver)
                plugin0 10 [5] [] Hp Hargs) as (Hrun & Hhist & _).
  split; [exact Hp|]. split; [exact Hargs|]. split.
  - rewrite Hrun. reflexivity.
  - exact (Hhist eq_refl).
Defined.

(** A short write makes [set_name] fail; a full one makes it return [True]
    with the name's frame on the wire, and lets [set_mode] pass. *)
Lemma C2_witness_short_and_full_write :
  is_open (_serialConn plugin0) = true
  /\ (forall data, exists n,
        os_write (SerialDriver := short_driver) [] data = Wrote n
        /\ n < len data)
  /\ fst (call (drv := short_driver) plugin0 (Set_name (py "pwnagotchi")) [])
     = Ret false
  /\ (forall data,
        os_write (SerialDriver := full_driver) [] data = Wrote (len data))
  /\ fst (call (drv := full_driver) plugin0 (Set_name (py "pwn")) [])
     = Ret true
  /\ snd (call (drv := full_driver) plugin0 (Set_name (py "pwn")) [])
     = [EvWrite [0x02; 5; 112; 119; 110; 0x03]]
  /\ call (drv := full_driver) plugin0 (Set_mode PwnMode.AUTO) []
     = (Ret true, [EvWrite [0x02; 10; 5; 0x03]]).
Proof.
  assert (Hopen : is_open (_serialConn plugin0) = true) by reflexivity.
  assert (Hshort : forall data, exists n,
             os_write (SerialDriver := short_driver) [] data = Wrote n
             /\ n < len data).
  { intros data. exists (len data - 1). split; [reflexivity|lia]. }
  assert (Hfull : forall data,
             os_write (SerialDriver := full_driver) [] data = Wrote (len data))
    by reflexivity.
  assert (Hreq : requested_frame (Set_name (py "pwn"))
                 = Some [0x02; 5; 112; 119; 110; 0x03]) by reflexivity.
  assert (Hbytes : Forall (fun b => 0 <= b < 256) [0x02; 5; 112; 119; 110; 0x03])
    by (repeat constructor; lia).
  pose proof (C2_setter_true_iff_fully_written (drv := full_driver)
                plugin0 (Set_name (py "pwn")) []) as (Htrue & Hhist & _).
  split; [exact Hopen|]. split; [exact Hshort|]. split.
  - exact (proj1 (proj2 (proj2 (C2_setter_true_iff_fully_written
                                  (drv := short_driver)
                                  plugin0 (Set_name (py "pwnagotchi")) [])))
             Hopen Hshort).
  - split; [exact Hfull|]. split.
    + apply (proj2 Htrue). exists [0x02; 5; 112; 119; 110; 0x03].
      split; [exact Hreq|]. split; [exact Hbytes|]. split; [exact Hopen|].
      apply Hfull.
    + split.
      * exact (Hhist _ Hreq Hbytes Hopen).
      * exact (proj2 (proj2 (proj2 (C2_setter_true_iff_fully_written
                                      (drv := full_driver)
                                      plugin0 (Set_mode PwnMode.AUTO) [])))
                 Hopen Hfull).
Defined.

(** A payload holding the code point of the euro sign is rejected. *)
Lemma C3_witness_euro_sign_rejected :
  (_is_byte plugin0 5 = false
   \/ Exists (fun b => _is_byte plugin0 b = false) [65; 8364])
  /\ _send_data (drv := full_driver) plugin0 5 [65; 8364] [] = (Ret false, [])
  /\ (_ <- _send_data (drv := full_driver) plugin0 5 [65; 8364] ;;
      _send_data (drv := full_driver) plugin0 10 [5]) []
     = (Ret true, [EvWrite [0x02; 10; 5; 0x03]]).
Proof.
  assert (Hbad : _is_byte plugin0 5 = false
                 \/ Exists (fun b => _is_byte plugin0 b = false) [65; 8364]).
  { right. apply Exists_cons_tl. apply Exists_cons_hd. reflexivity. }
  pose proof (C3_send_data_rejects_non_bytes (drv := full_driver)
                plugin0 5 [65; 8364] [] Hbad) as (Hret & Hnext).
  split; [exact Hbad|]. split; [exact Hret|].
  rewrite (Hnext 10 [5]). reflexivity.
Defined.



(** The constructor on a device that cannot be opened. *)
Lemma C9_witness_absent_port :
  os_open (SerialDriver := absent_driver) [] (py "/dev/ttyUSB9") 9600
  = OpenFailed (Exn SerialException (py "could not open port"))
  /\ __init__ (drv := absent_driver) (py "/dev/ttyUSB9") 9600 []
     = (Raise (Exn RuntimeError
                 (py "Cannot bind to port /dev/ttyUSB9 with baud 9600: could not open port")),
        [EvOpen (py "/dev/ttyUSB9") 9600])
  /\ (forall self : PwnZero,
        fst (__init__ (drv := absent_driver) (py "/dev/ttyUSB9") 9600 [])
        <> Ret self).
Proof.
  assert (Hfail : os_open (SerialDriver := absent_driver) [] (py "/dev/ttyUSB9") 9600
                  = OpenFailed (Exn SerialException (py "could not open port")))
    by reflexivity.
  pose proof (C9_init_raises_when_open_fails (drv := absent_driver)
                (py "/dev/ttyUSB9") 9600 [] _ Hfail) as (Hraise & Hnone).
  split; [exact Hfail|]. split; [|exact Hnone].
  rewrite Hraise. reflexivity.
Defined.

(** [set_name] on a name with the euro sign: the check that fails is the one
    on the payload, and the offending element comes from the string. *)
Lemma C10_witness_euro_name :
  _is_byte plugin0 (PwnZeroParam.value PwnZeroParam.NAME) = true
  /\ exists s : pystr,
       Exists (fun ch => 256 <= ord ch) s
       /\ Set_name [8364%N] = Set_name s.
Proof.
  pose proof (C10_param_check_never_fails (drv := full_driver)
                plugin0 (Set_name [8364%N])) as (Hparam & Hcall).
  split; [exact (proj2 (Hparam PwnZeroParam.NAME))|].
  destruct Hcall as [Hfriend|(p & args & Hc & Hsend & Hstr)];
    [discriminate Hfriend|].
  assert (Hbad : forallb (_is_byte plugin0) args = false).
  { destruct (forallb (_is_byte plugin0) args) eqn:Hall; [|reflexivity].
    pose proof (Hsend []) as Hrun. rewrite <- Hc in Hrun.
    exfalso. revert Hrun. unfold write_frame, bind, Serial_write. simpl.
    discriminate. }
  destruct (Hstr Hbad) as (s & _ & Hex & Hwhich).
  exists s. split; [exact Hex|].
  destruct Hwhich as [H|[H|[H|[H|[H|H]]]]];
    first [exact H | discriminate H].
Defined.

(** * Further properties of the code *)

Section Coverage.

Context {drv : SerialDriver}.

(** ** What a set_* call can put on the wire *)

(** X1: a [set_*] call adds nothing to the history, or exactly one event: the
    write, on an open connection, of a frame [0x02, p] ++ payload ++ [0x03]
    whose parameter [p] is in 4..12 and whose payload holds bytes only.  It
    never writes twice and never opens or closes the port. *)
Theorem setter_adds_at_most_one_frame (self : PwnZero) (c : setter) (w : World) :
  snd (call self c w) = w
  \/ exists (p : Z) (payload : list Z),
       snd (call self c w) = w ++ [EvWrite ([0x02; p] ++ payload ++ [0x03])]
       /\ 4 <= p <= 12
       /\ Forall (fun b => 0 <= b < 256) payload
       /\ is_open (_serialConn self) = true.
Proof.
  destruct (call_cases self c) as [->|(p & args & ->)]; [now left|].
  destruct (send_data_outcomes self (PwnZeroParam.value p) args w)
    as [E|(_ & Hargs & E)]; rewrite E; [now left|].
  destruct (write_frame_outcomes self (PwnZeroParam.value p) args w)
    as [[_ R]|[[Ho (n & _ & R)]|[Ho (e & _ & R)]]]; rewrite R; [now left| |];
    right; exists (PwnZeroParam.value p), args;
    (split; [reflexivity|]); (split; [apply param_value_range|]);
    (split; [|exact Ho]);
    (eapply Forall_impl; [|exact Hargs]); intros b; apply is_byte_true.
Qed.

(** ** Markers inside a payload *)

Lemma wire_app (w1 w2 : World) : wire (w1 ++ w2) = wire w1 ++ wire w2.
Proof. unfold wire. apply flat_map_app. Qed.

Lemma latin1_bytes (self : PwnZero) (s : pystr) :
  Forall (fun c => ord c < 256) s ->
  Forall (fun b => _is_byte self b = true) (_str_to_bytes self s).
Proof.
  rewrite str_to_bytes_map. intros H. apply Forall_map.
  eapply Forall_impl; [|exact H]. intros c Hc. apply is_byte_true.
  unfold ord in *. lia.
Qed.

Lemma send_data_accepted (self : PwnZero) (param : Z) (args : list Z) (w : World) :
  is_open (_serialConn self) = true ->
  never_fails drv ->
  _is_byte self param = true ->
  Forall (fun b => _is_byte self b = true) args ->
  exists b : bool,
    _send_data self param args w = (Ret b, w ++ [EvWrite (frame param args)]).
Proof.
  intros Hopen Hdrv Hp Hargs. rewrite send_data_valid by assumption.
  destruct (write_frame_outcomes self param args w)
    as [[Hc _]|[[_ (n & _ & R)]|[_ (e & He & _)]]].
  - congruence.
  - rewrite R. eexists. reflexivity.
  - destruct (Hdrv w (frame param args)) as (n & Hn). congruence.
Qed.

(** X2: payload bytes equal to the markers are sent as they are.  On a
    connection that accepts every write, one [set_name] whose string holds
    the characters 3, 2, 6 between [s1] and [s2] hands the device the very
    byte stream of [set_name(s1)] followed by [set_channel(s2)]. *)
Theorem markers_in_payload_not_escaped (self : PwnZero) (s1 s2 : pystr) (w : World) :
  is_open (_serialConn self) = true ->
  never_fails drv ->
  Forall (fun c => ord c < 256) s1 ->
  Forall (fun c => ord c < 256) s2 ->
  wire (snd (set_name self (s1 ++ [3%N; 2%N; 6%N] ++ s2) w))
  = wire (snd ((_ <- set_name self s1 ;; set_channel self s2) w)).
Proof.
  intros Hopen Hdrv H1 H2.
  assert (H12 : Forall (fun c => ord c < 256) (s1 ++ [3%N; 2%N; 6%N] ++ s2)).
  { apply Forall_app. split; [exact H1|]. apply Forall_app. split; [|exact H2].
    repeat constructor. }
  unfold set_name, set_channel, bind.
  destruct (send_data_accepted self (PwnZeroParam.value PwnZeroParam.NAME)
              (_str_to_bytes self (s1 ++ [3%N; 2%N; 6%N] ++ s2)) w
              Hopen Hdrv eq_refl (latin1_bytes self _ H12)) as (b & ->).
  destruct (send_data_accepted self (PwnZeroParam.value PwnZeroParam.NAME)
              (_str_to_bytes self s1) w
              Hopen Hdrv eq_refl (latin1_bytes self _ H1)) as (b1 & ->).
  destruct (send_data_accepted self (PwnZeroParam.value PwnZeroParam.CHANNEL)
              (_str_to_bytes self s2)
              (w ++ [EvWrite (frame (PwnZeroParam.value PwnZeroParam.NAME)
                                (_str_to_bytes self s1))])
              Hopen Hdrv eq_refl (latin1_bytes self _ H2)) as (b2 & ->).
  cbn [snd]. rewrite !wire_app. rewrite <- app_assoc. f_equal.
  rewrite !str_to_bytes_map, !map_app. unfold frame, wire. simpl.
  rewrite !app_nil_r. rewrite <- !app_assoc. reflexivity.
Qed.

(** ** close *)

(** X3: [close] returns the object with its connection closed and port and
    baud rate kept; it records one close event when the connection was open
    and none otherwise, and a second [close] changes nothing.  On the closed
    object no [set_*] call writes anything or returns [True]. *)
Theorem close_ends_all_writes (self : PwnZero) (w : World) :
  exists self' : PwnZero,
    close self w
    = (Ret self', w ++ (if is_open (_serialConn self) then [EvClose] else []))
    /\ is_open (_serialConn self') = false
    /\ _port self' = _port self
    /\ _baud self' = _baud self
    /\ (forall w2 : World, close self' w2 = (Ret self', w2))
    /\ (forall (c : setter) (w2 : World),
          snd (call self' c w2) = w2 /\ fst (call self' c w2) <> Ret true).
Proof.
  assert (Hcalls : forall self' : PwnZero,
             is_open (_serialConn self') = false ->
             forall (c : setter) (w2 : World),
               snd (call self' c w2) = w2 /\ fst (call self' c w2) <> Ret true).
  { intros self' Hc c w2.
    destruct (call_cases self' c) as [->|(p & args & ->)];
      [split; [reflexivity|discriminate]|].
    destruct (send_data_outcomes self' (PwnZeroParam.value p) args w2)
      as [E|(_ & _ & E)]; rewrite E; [split; [reflexivity|discriminate]|].
    destruct (write_frame_outcomes self' (PwnZeroParam.value p) args w2)
      as [[_ R]|[[Ho _]|[Ho _]]]; [|congruence|congruence].
    rewrite R. split; [reflexivity|discriminate]. }
  destruct self as [p b [cp cb o]]. unfold close, bind, Serial_close. simpl.
  destruct o; eexists; (split; [try rewrite app_nil_r; reflexivity|]);
    repeat split; try reflexivity; try (now apply Hcalls); now apply Hcalls.
Qed.

(** ** The constructor on success *)

(** X4: the constructor makes exactly one open attempt and writes nothing,
    whatever the outcome; when it returns an object, the device accepted the
    open, and the object stores the port and the baud rate and holds an
    open connection on them. *)
Theorem init_returns_open_connection (port : pystr) (baud : Z) (w : World) :
  snd (__init__ port baud w) = w ++ [EvOpen port baud]
  /\ (forall self : PwnZero,
        fst (__init__ port baud w) = Ret self ->
        os_open w port baud = Opened
        /\ _port self = port
        /\ _baud self = baud
        /\ _serialConn self
           = {| port := port; baudrate := baud; is_open := true |}).
Proof.
  unfold __init__, try_except, bind, Serial_new, raise, ret.
  destruct (os_open w port baud) as [|e]; simpl.
  - split; [reflexivity|]. intros self E. injection E as <-. now repeat split.
  - split; [reflexivity|]. discriminate.
Qed.

(** ** The string helper, once more *)

(** X5: the code points can be read back from the result of
    [_str_to_bytes]; the result of a concatenation is the concatenation of
    the results; and the result passes the byte check of [_send_data]
    exactly when every code point of the string is below 256. *)
Theorem str_to_bytes_round_trip (self : PwnZero) (s s' : pystr) :
  map Z.to_N (_str_to_bytes self s) = s
  /\ _str_to_bytes self (s ++ s') = _str_to_bytes self s ++ _str_to_bytes self s'
  /\ forallb (_is_byte self) (_str_to_bytes self s)
     = forallb (fun c => (c <? 256)%N) s.
Proof.
  rewrite !str_to_bytes_map. split; [|split].
  - rewrite map_map. rewrite <- (map_id s) at 2. apply map_ext.
    intros c. apply N2Z.id.
  - apply map_app.
  - induction s as [|c s IH]; [reflexivity|]. simpl. rewrite IH. f_equal.
    unfold _is_byte, ord.
    destruct (N.ltb_spec c 256) as [Hc|Hc].
    + apply andb_true_iff. split; [apply Z.leb_le|apply Z.ltb_lt]; lia.
    + apply andb_false_iff. right. apply Z.ltb_ge. lia.
Qed.

End Coverage.

(** ** Sequences of statements *)

Lemma ubind_assoc {A B C : Type} (m : U A) (f : A -> U B) (g : B -> U C) (w : World) :
  ubind (ubind m f) g w = ubind m (fun x => ubind (f x) g) w.
Proof. unfold ubind. destruct (m w) as [[a|e] w']; reflexivity. Qed.

Lemma ubind_ext {A B : Type} (m : U A) (f g : A -> U B) (w : World) :
  (forall a w', f a w' = g a w') -> ubind m f w = ubind m g w.
Proof. intros H. unfold ubind. destruct (m w) as [[a|e] w']; [apply H|reflexivity]. Qed.

Lemma ubind_uret_tt (m : U unit) (w : World) :
  ubind m (fun _ => uret tt) w = m w.
Proof. unfold ubind, uret. destruct (m w) as [[[]|e] w']; reflexivity. Qed.

Lemma run_steps_adds (steps : list (U unit)) (plan : list (list event)) :
  Forall2 step_adds steps plan ->
  forall w : World,
    exists (r : outcome unit) (k : nat),
      run_steps steps w = (r, w ++ List.concat (firstn k plan))
      /\ (r = Returned tt -> List.concat (firstn k plan) = List.concat plan).
Proof.
  induction 1 as [|s evs steps plan Hs _ IH]; intros w.
  - exists (Returned tt), 0%nat. simpl. unfold uret. rewrite app_nil_r.
    split; reflexivity.
  - simpl. unfold ubind. destruct (Hs w) as (r & ->). destruct r as [[]|e].
    + destruct (IH (w ++ evs)) as (r' & k & -> & Hk).
      exists r', (S k). simpl. rewrite <- app_assoc. split; [reflexivity|].
      intros Hr. now rewrite (Hk Hr).
    + exists (Raised e), 1%nat. simpl. rewrite app_nil_r.
      split; [reflexivity|discriminate].
Qed.

Lemma run_steps_returns (steps : list (U unit)) (plan : list (list event)) :
  Forall2 step_returns steps plan ->
  forall w : World, run_steps steps w = (Returned tt, w ++ List.concat plan).
Proof.
  induction 1 as [|s evs steps plan Hs _ IH]; intros w; simpl.
  - unfold uret. now rewrite app_nil_r.
  - unfold ubind. rewrite Hs, IH. now rewrite <- app_assoc.
Qed.

Section Updating.

Context {drv : SerialDriver} {bi : Builtins} {fc : faces.t}.

Lemma on_ui_update_steps (self : PwnZero) (ui : View) (w : World) :
  on_ui_update self ui w = run_steps (update_steps self ui) w.
Proof.
  unfold on_ui_update, update_steps, run_steps, fold_right.
  apply ubind_ext. intros _ w1.
  unfold step_mode at 1. rewrite ubind_assoc. apply ubind_ext. intros mode w2.
  apply ubind_ext. intros _ w3.
  apply ubind_ext. intros _ w4.
  apply ubind_ext. intros _ w5.
  apply ubind_ext. intros _ w6.
  apply ubind_ext. intros _ w7.
  unfold step_face at 1. rewrite ubind_assoc. apply ubind_ext. intros fe w8.
  apply ubind_ext. intros _ w9.
  now rewrite ubind_uret_tt.
Qed.

(** *** One send, in any state of the connection *)

Lemma send_data_by_checks (self : PwnZero) (param : Z) (args : list Z) (w : World) :
  _send_data self param args w
  = if _is_byte self param && forallb (_is_byte self) args
    then write_frame self param args w
    else (Ret false, w).
Proof.
  destruct (_is_byte self param) eqn:Hp; simpl.
  - destruct (forallb (_is_byte self) args) eqn:Hargs.
    + apply send_data_valid; [exact Hp|now apply forallb_is_byte_true].
    + apply send_data_invalid. right. now apply forallb_is_byte_false.
  - apply send_data_invalid. now left.
Qed.

Lemma stmt_send_adds (self : PwnZero) (param : Z) (args : list Z) :
  step_adds (stmt (_send_data self param args)) (sent self param args).
Proof.
  intros w. unfold stmt, sent. rewrite send_data_by_checks.
  destruct (_is_byte self param && forallb (_is_byte self) args).
  - destruct (write_frame_outcomes self param args w)
      as [[Hc ->]|[[Ho (n & _ & ->)]|[Ho (e & _ & ->)]]]; rewrite ?Hc, ?Ho; simpl;
      eexists; rewrite ?app_nil_r; reflexivity.
  - rewrite andb_false_r. simpl. eexists. now rewrite app_nil_r.
Qed.

Lemma stmt_send_returns (self : PwnZero) (param : Z) (args : list Z) :
  is_open (_serialConn self) = true ->
  never_fails drv ->
  step_returns (stmt (_send_data self param args)) (sent self param args).
Proof.
  intros Hopen Hdrv w. unfold stmt, sent. rewrite send_data_by_checks, Hopen.
  simpl. destruct (_is_byte self param && forallb (_is_byte self) args).
  - destruct (write_frame_outcomes self param args w)
      as [[Hc _]|[[_ (n & _ & ->)]|[_ (e & He & _)]]].
    + congruence.
    + reflexivity.
    + destruct (Hdrv w (frame param args)) as (n & Hn). congruence.
  - now rewrite app_nil_r.
Qed.

Lemma stmt_send_closed (self : PwnZero) (param : Z) (args : list Z) (w : World) :
  is_open (_serialConn self) = false ->
  stmt (_send_data self param args) w
  = if _is_byte self param && forallb (_is_byte self) args
    then (Raised (FromSend port_not_open), w)
    else (Returned tt, w).
Proof.
  intros Hc. unfold stmt. rewrite send_data_by_checks.
  destruct (_is_byte self param && forallb (_is_byte self) args); [|reflexivity].
  destruct (write_frame_outcomes self param args w)
    as [[_ ->]|[[Ho _]|[Ho _]]]; [reflexivity|congruence|congruence].
Qed.

Lemma uret_adds_nothing : step_adds (uret tt) [].
Proof. intros w. exists (Returned tt). unfold uret. now rewrite app_nil_r. Qed.

Lemma uret_returns_nothing : step_returns (uret tt) [].
Proof. intros w. unfold uret. now rewrite app_nil_r. Qed.

(** *** The lookups *)

Lemma mode_key_hashable (v : pyval) : hashable (mode_key_of v) = true.
Proof. destruct v; reflexivity. Qed.

Lemma dict_get_mode (v : pyval) (w : World) :
  dict_get mode_mapping (mode_key_of v) w = (Returned (mode_of v), w).
Proof.
  unfold dict_get, dict_get_default. now rewrite mode_key_hashable.
Qed.

(** *** The eight statements *)

Lemma step_text_adds (self : PwnZero) (p : PwnZeroParam.t) (v : pyval) :
  step_adds
    (step_text self v
       (fun s => _send_data self (PwnZeroParam.value p) (_str_to_bytes self s)))
    (text_events self p v).
Proof.
  unfold step_text, text_events. destruct (negb (is_None v));
    [apply stmt_send_adds|apply uret_adds_nothing].
Qed.

Lemma step_mode_adds (self : PwnZero) (v : pyval) :
  step_adds (step_mode self v) (mode_events self v).
Proof.
  intros w. unfold step_mode, ubind, mode_events. rewrite dict_get_mode.
  destruct (mode_of v) as [mode|];
    [apply stmt_send_adds|apply uret_adds_nothing].
Qed.

Lemma step_name_adds (self : PwnZero) (v : pyval) :
  step_adds (step_name self v) (name_events self v).
Proof.
  unfold step_name, name_events. destruct (negb (is_None v));
    [apply stmt_send_adds|apply uret_adds_nothing].
Qed.

Lemma step_face_adds (self : PwnZero) (v : pyval) :
  step_adds (step_face self v) (face_events self v).
Proof.
  intros w. unfold step_face, ubind, face_events, dict_get_default.
  destruct (hashable v).
  - unfold uret. apply stmt_send_adds.
  - eexists. now rewrite app_nil_r.
Qed.

Lemma update_steps_add (self : PwnZero) (ui : View) :
  Forall2 step_adds (update_steps self ui) (update_events self ui).
Proof.
  unfold update_steps, update_events.
  repeat (apply Forall2_cons || apply Forall2_nil).
  - apply (step_text_adds self PwnZeroParam.MESSAGE).
  - apply step_mode_adds.
  - apply (step_text_adds self PwnZeroParam.CHANNEL).
  - apply (step_text_adds self PwnZeroParam.UPTIME).
  - apply stmt_send_adds.
  - apply step_name_adds.
  - apply step_face_adds.
  - apply stmt_send_adds.
Qed.

Section Healthy.

Variable self : PwnZero.
Hypothesis Hopen : is_open (_serialConn self) = true.
Hypothesis Hdrv : never_fails drv.

Lemma step_text_returns (p : PwnZeroParam.t) (v : pyval) :
  step_returns
    (step_text self v
       (fun s => _send_data self (PwnZeroParam.value p) (_str_to_bytes self s)))
    (text_events self p v).
Proof.
  unfold step_text, text_events. destruct (negb (is_None v));
    [now apply stmt_send_returns|apply uret_returns_nothing].
Qed.

Lemma step_mode_returns (v : pyval) :
  step_returns (step_mode self v) (mode_events self v).
Proof.
  intros w. unfold step_mode, ubind, mode_events. rewrite dict_get_mode.
  destruct (mode_of v) as [mode|];
    [now apply stmt_send_returns|apply uret_returns_nothing].
Qed.

Lemma step_name_returns (v : pyval) :
  step_returns (step_name self v) (name_events self v).
Proof.
  unfold step_name, name_events. destruct (negb (is_None v));
    [now apply stmt_send_returns|apply uret_returns_nothing].
Qed.

Lemma step_face_returns (v : pyval) :
  hashable v = true ->
  step_returns (step_face self v) (face_events self v).
Proof.
  intros Hh w. unfold step_face, ubind, face_events, dict_get_default.
  rewrite Hh. unfold uret. now apply stmt_send_returns.
Qed.

Lemma update_steps_return (ui : View) :
  hashable (ui_get ui (py "face")) = true ->
  Forall2 step_returns (update_steps self ui) (update_events self ui).
Proof.
  intros Hh. unfold update_steps, update_events.
  repeat (apply Forall2_cons || apply Forall2_nil).
  - apply (step_text_returns PwnZeroParam.MESSAGE).
  - apply step_mode_returns.
  - apply (step_text_returns PwnZeroParam.CHANNEL).
  - apply (step_text_returns PwnZeroParam.UPTIME).
  - now apply stmt_send_returns.
  - apply step_name_returns.
  - now apply step_face_returns.
  - now apply stmt_send_returns.
Qed.

Lemma update_on_healthy_connection (ui : View) (w : World) :
  hashable (ui_get ui (py "face")) = true ->
  on_ui_update self ui w
  = (Returned tt, w ++ List.concat (update_events self ui)).
Proof.
  intros Hh. rewrite on_ui_update_steps.
  apply run_steps_returns. now apply update_steps_return.
Qed.

(** *** What a send adds *)

Lemma sent_open_valid (param : Z) (args : list Z) :
  _is_byte self param = true ->
  forallb (_is_byte self) args = true ->
  sent self param args = [EvWrite (frame param args)].
Proof. intros Hp Hargs. unfold sent. now rewrite Hopen, Hp, Hargs. Qed.

End Healthy.

Lemma sent_cases (self : PwnZero) (param : Z) (args : list Z) :
  sent self param args = []
  \/ (sent self param args = [EvWrite (frame param args)]
      /\ is_open (_serialConn self) = true
      /\ _is_byte self param = true
      /\ Forall (fun b => 0 <= b < 256) args).
Proof.
  unfold sent. destruct (is_open (_serialConn self)); [|now left].
  destruct (_is_byte self param); [|now left].
  destruct (forallb (_is_byte self) args) eqn:Hargs; [|now left].
  right. repeat split. apply forallb_is_byte_true in Hargs.
  eapply Forall_impl; [|exact Hargs]. intros b. apply is_byte_true.
Qed.

Lemma sent_at_most_frame (self : PwnZero) (param : Z) (args : list Z) :
  at_most_frame param (sent self param args).
Proof.
  destruct (sent_cases self param args) as [->|(-> & _ & _ & Hargs)];
    [now left|].
  right. exists args. split; [reflexivity|exact Hargs].
Qed.

Lemma text_events_at_most_frame (self : PwnZero) (p : PwnZeroParam.t) (v : pyval) :
  at_most_frame (PwnZeroParam.value p) (text_events self p v).
Proof.
  unfold text_events. destruct (negb (is_None v));
    [apply sent_at_most_frame|now left].
Qed.

Lemma mode_events_at_most_frame (self : PwnZero) (v : pyval) :
  at_most_frame 10 (mode_events self v).
Proof.
  unfold mode_events. destruct (mode_of v);
    [apply sent_at_most_frame|now left].
Qed.

Lemma name_events_at_most_frame (self : PwnZero) (v : pyval) :
  at_most_frame 5 (name_events self v).
Proof.
  unfold name_events. destruct (negb (is_None v));
    [apply sent_at_most_frame|now left].
Qed.

(** *** Dict displays *)

Lemma pystr_eqb_eq (a b : pystr) : pystr_eqb a b = true <-> a = b.
Proof.
  revert b. induction a as [|x a IH]; intros [|y b]; simpl;
    try (split; [discriminate|discriminate]); [tauto|].
  rewrite andb_true_iff, N.eqb_eq, IH. split.
  - intros [-> ->]. reflexivity.
  - intros E. injection E as -> ->. now split.
Qed.

Lemma dict_set_values {V : Type} (P : V -> Prop) (d : dict V) (k : pystr) (v : V) :
  Forall (fun kv => P (snd kv)) d -> P v ->
  Forall (fun kv => P (snd kv)) (dict_set d k v).
Proof.
  intros Hd Hv. induction Hd as [|[k' v'] d Hkv Hd IH]; simpl.
  - now constructor.
  - destruct (pystr_eqb k k'); constructor; auto.
Qed.

Lemma dict_literal_values {V : Type} (P : V -> Prop) (items : list (pystr * V)) :
  Forall (fun kv => P (snd kv)) items ->
  Forall (fun kv => P (snd kv)) (dict_literal items).
Proof.
  unfold dict_literal. generalize (@nil (pystr * V)) (@Forall_nil (pystr * V)
    (fun kv => P (snd kv))).
  induction items as [|[k v] items IH]; intros acc Hacc Hitems; simpl.
  - exact Hacc.
  - inversion Hitems as [|? ? Hkv Hrest]; subst.
    apply IH; [|exact Hrest]. now apply dict_set_values.
Qed.

Lemma dict_find_values {V : Type} (P : V -> Prop) (d : dict V) (k : pystr) (v : V) :
  Forall (fun kv => P (snd kv)) d -> dict_find d k = Some v -> P v.
Proof.
  induction 1 as [|[k' v'] d Hkv _ IH]; simpl; [discriminate|].
  destruct (pystr_eqb k k'); [|exact IH].
  intros E. injection E as <-. exact Hkv.
Qed.

Lemma face_lookup_range (v : pyval) :
  5 <= PwnFace.value (dict_lookup face_mapping v PwnFace.DEFAULT_FACE) <= 30.
Proof.
  assert (Hdefault : 5 <= PwnFace.value PwnFace.DEFAULT_FACE <= 30)
    by (cbn [PwnFace.value]; lia).
  destruct v as [|s|i|items|items]; cbn [dict_lookup]; try exact Hdefault.
  destruct (dict_find face_mapping s) as [f|] eqn:Hf; [|exact Hdefault].
  apply (dict_find_values (fun f => 5 <= PwnFace.value f <= 30)) in Hf;
    [exact Hf|].
  unfold face_mapping, face_items.
  apply (dict_literal_values (fun f => 5 <= PwnFace.value f <= 30)).
  repeat (apply Forall_cons; [cbn [snd PwnFace.value]; lia|]).
  apply Forall_nil.
Qed.

Lemma face_events_frame (self : PwnZero) (v : pyval) :
  is_open (_serialConn self) = true ->
  hashable v = true ->
  face_events self v
  = [EvWrite [0x02; 4;
              PwnFace.value (dict_lookup face_mapping v PwnFace.DEFAULT_FACE);
              0x03]].
Proof.
  intros Hopen Hh. unfold face_events. rewrite Hh.
  change [0x02; 4;
          PwnFace.value (dict_lookup face_mapping v PwnFace.DEFAULT_FACE); 0x03]
    with (frame (PwnZeroParam.value PwnZeroParam.FACE)
            [PwnFace.value (dict_lookup face_mapping v PwnFace.DEFAULT_FACE)]).
  apply sent_open_valid; [exact Hopen|reflexivity|].
  cbn [forallb]. rewrite andb_true_r. apply is_byte_true.
  pose proof (face_lookup_range v). lia.
Qed.

(** ** on_ui_update on a connection that accepts every write *)

(** X6: on an open connection whose device accepts every write (short
    counts included), with a hashable face value, [on_ui_update] returns
    [None] and sends its frames in the fixed order MESSAGE, MODE, CHANNEL,
    UPTIME, APS, NAME, FACE, HANDSHAKES, at most one of each.  The FACE
    frame is always among them and its code is in 5..30: NO_FACE is never
    sent.  The booleans of the [set_*] calls are not looked at. *)
Theorem update_sends_frames_in_order (self : PwnZero) (ui : View) (w : World) :
  is_open (_serialConn self) = true ->
  never_fails drv ->
  hashable (ui_get ui (py "face")) = true ->
  exists (v : Z) (e12 e10 e6 e8 e7 e5 e11 : list event),
    on_ui_update self ui w
    = (Returned tt,
       w ++ e12 ++ e10 ++ e6 ++ e8 ++ e7 ++ e5
         ++ [EvWrite [0x02; 4; v; 0x03]] ++ e11)
    /\ 5 <= v <= 30
    /\ at_most_frame 12 e12 /\ at_most_frame 10 e10
    /\ at_most_frame 6 e6 /\ at_most_frame 8 e8
    /\ at_most_frame 7 e7 /\ at_most_frame 5 e5
    /\ at_most_frame 11 e11.
Proof.
  intros Hopen Hdrv Hh.
  rewrite (update_on_healthy_connection self Hopen Hdrv ui w Hh).
  unfold update_events. cbn [List.concat].
  rewrite (face_events_frame self _ Hopen Hh). rewrite app_nil_r.
  do 8 eexists. split; [reflexivity|].
  split; [apply face_lookup_range|].
  repeat split;
    first [ apply (text_events_at_most_frame self PwnZeroParam.MESSAGE)
          | apply (text_events_at_most_frame self PwnZeroParam.CHANNEL)
          | apply (text_events_at_most_frame self PwnZeroParam.UPTIME)
          | apply mode_events_at_most_frame
          | apply name_events_at_most_frame
          | apply (sent_at_most_frame self 7)
          | apply (sent_at_most_frame self 11) ].
Qed.

(** X7: when the UI state holds none of the eight keys, [on_ui_update] on
    such a connection still sends three frames: an APS frame and a
    HANDSHAKES frame with an empty payload, and between them the FACE frame
    of DEFAULT_FACE. *)
Theorem update_with_no_keys_sends_three_frames
  (self : PwnZero) (ui : View) (w : World) :
  is_open (_serialConn self) = true ->
  never_fails drv ->
  (forall key : pystr,
     In key [py "status"; py "mode"; py "channel"; py "uptime"; py "aps";
             py "name"; py "face"; py "shakes"] ->
     ui_get ui key = VNone) ->
  on_ui_update self ui w
  = (Returned tt,
     w ++ [EvWrite [0x02; 7; 0x03]; EvWrite [0x02; 4; 5; 0x03];
           EvWrite [0x02; 11; 0x03]]).
Proof.
  intros Hopen Hdrv Hnone.
  assert (Hface : ui_get ui (py "face") = VNone) by (apply Hnone; simpl; tauto).
  rewrite (update_on_healthy_connection self Hopen Hdrv ui w)
    by now rewrite Hface.
  unfold update_events.
  rewrite !Hnone by (simpl; tauto).
  unfold text_events, mode_events, name_events, face_events, sent.
  rewrite Hopen. reflexivity.
Qed.

(** ** on_ui_update on a closed connection *)

Lemma run_steps_stops (P : pyexn -> Prop) (pre : list (U unit)) (s : U unit)
  (post : list (U unit)) :
  P (FromSend port_not_open) ->
  Forall (fun s0 : U unit =>
            forall w : World,
              s0 w = (Returned tt, w)
              \/ s0 w = (Raised (FromSend port_not_open), w)) pre ->
  (forall w : World, exists e : pyexn, s w = (Raised e, w) /\ P e) ->
  forall w : World,
    exists e : pyexn, run_steps (pre ++ s :: post) w = (Raised e, w) /\ P e.
Proof.
  intros HP Hpre Hs. induction Hpre as [|s0 pre Hs0 _ IH]; intros w; simpl.
  - unfold ubind. destruct (Hs w) as (e & -> & He). now exists e.
  - unfold ubind. destruct (Hs0 w) as [-> | ->].
    + apply IH.
    + now exists (FromSend port_not_open).
Qed.

Section Closed.

Variable self : PwnZero.
Hypothesis Hclosed : is_open (_serialConn self) = false.

Lemma stmt_send_closed_cases (param : Z) (args : list Z) (w : World) :
  stmt (_send_data self param args) w = (Returned tt, w)
  \/ stmt (_send_data self param args) w = (Raised (FromSend port_not_open), w).
Proof.
  rewrite stmt_send_closed by exact Hclosed.
  destruct (_is_byte self param && forallb (_is_byte self) args);
    [now right|now left].
Qed.

Lemma step_face_closed (v : pyval) (w : World) :
  exists e : pyexn,
    step_face self v w = (Raised e, w)
    /\ (e = FromSend port_not_open \/ (hashable v = false /\ e = unhashable)).
Proof.
  unfold step_face, ubind, dict_get_default. destruct (hashable v).
  - unfold uret, set_face. rewrite stmt_send_closed by exact Hclosed.
    assert (Hv : _is_byte self (PwnZeroParam.value PwnZeroParam.FACE)
                 && forallb (_is_byte self)
                      [PwnFace.value
                         (dict_lookup face_mapping v PwnFace.DEFAULT_FACE)]
                 = true).
    { cbn [forallb]. rewrite andb_true_r. apply andb_true_iff.
      split; [reflexivity|]. apply is_byte_true.
      pose proof (face_lookup_range v). lia. }
    rewrite Hv. eexists. split; [reflexivity|now left].
  - eexists. split; [reflexivity|]. right. now split.
Qed.

(** X8: on a closed connection [on_ui_update] never returns: it raises,
    either the port-not-open error of the first send whose payload passes
    the byte check (the FACE frame at the latest) or, when the face value is
    unhashable, the [TypeError] of the face lookup.  Nothing is written. *)
Theorem update_on_closed_connection_raises (ui : View) (w : World) :
  exists e : pyexn,
    on_ui_update self ui w = (Raised e, w)
    /\ (e = FromSend port_not_open
        \/ (hashable (ui_get ui (py "face")) = false /\ e = unhashable)).
Proof.
  rewrite on_ui_update_steps. unfold update_steps.
  apply (run_steps_stops
           (fun e => e = FromSend port_not_open
                     \/ (hashable (ui_get ui (py "face")) = false
                         /\ e = unhashable))
           [step_text self (ui_get ui (py "status")) (set_message self);
            step_mode self (ui_get ui (py "mode"));
            step_text self (ui_get ui (py "channel")) (set_channel self);
            step_text self (ui_get ui (py "uptime")) (set_uptime self);
            stmt (set_aps self (count_text (ui_get ui (py "aps"))));
            step_name self (ui_get ui (py "name"))]).
  - now left.
  - repeat (apply Forall_cons || apply Forall_nil); intros w0.
    + unfold step_text. destruct (negb (is_None (ui_get ui (py "status"))));
        [apply stmt_send_closed_cases|now left].
    + unfold step_mode, ubind. rewrite dict_get_mode.
      destruct (mode_of (ui_get ui (py "mode")));
        [apply stmt_send_closed_cases|now left].
    + unfold step_text. destruct (negb (is_None (ui_get ui (py "channel"))));
        [apply stmt_send_closed_cases|now left].
    + unfold step_text. destruct (negb (is_None (ui_get ui (py "uptime"))));
        [apply stmt_send_closed_cases|now left].
    + apply stmt_send_closed_cases.
    + unfold step_name. destruct (negb (is_None (ui_get ui (py "name"))));
        [apply stmt_send_closed_cases|now left].
  - intros w0. apply step_face_closed.
Qed.

End Closed.

(** ** The name, in any state of the connection *)

Lemma in_concat_firstn {A : Type} (x : A) (k : nat) (l : list (list A)) :
  In x (List.concat (firstn k l)) -> In x (List.concat l).
Proof.
  rewrite !in_concat. intros (y & Hy & Hx). exists y. split; [|exact Hx].
  rewrite <- (firstn_skipn k l). apply in_or_app. now left.
Qed.

Lemma sent_in (self : PwnZero) (param : Z) (args : list Z) (data : list Z) :
  In (EvWrite data) (sent self param args) -> data = frame param args.
Proof.
  destruct (sent_cases self param args) as [->|(-> & _)]; simpl; [tauto|].
  intros [E|[]]. now injection E.
Qed.

Lemma frame_inj (p q : Z) (args payload : list Z) :
  frame p args = [0x02; q] ++ payload ++ [0x03] -> p = q /\ args = payload.
Proof.
  unfold frame. simpl. intros E. injection E as -> E.
  split; [reflexivity|]. now apply app_inv_tail in E.
Qed.

Lemma frame_param (p : Z) (args : list Z) : nth_error (frame p args) 1 = Some p.
Proof. reflexivity. Qed.

Lemma replace1_empty_filter (s : pystr) (c : pychar) :
  replace1 s c (py "") = filter (fun x => negb (N.eqb x c)) s.
Proof.
  unfold replace1. induction s as [|x s IH]; [reflexivity|].
  simpl. rewrite IH. destruct (N.eqb x c); reflexivity.
Qed.

Lemma text_events_in (self : PwnZero) (p : PwnZeroParam.t) (v : pyval) (data : list Z) :
  In (EvWrite data) (text_events self p v) ->
  data = frame (PwnZeroParam.value p) (_str_to_bytes self (py_str v)).
Proof.
  unfold text_events. destruct (negb (is_None v)); [apply sent_in|intros []].
Qed.

Lemma mode_events_in (self : PwnZero) (v : pyval) (data : list Z) :
  In (EvWrite data) (mode_events self v) ->
  exists mode : PwnMode.t,
    mode_of v = Some mode /\ data = frame 10 [PwnMode.value mode].
Proof.
  unfold mode_events. destruct (mode_of v) as [mode|]; [|intros []].
  intros H. exists mode. split; [reflexivity|]. now apply sent_in in H.
Qed.

Lemma name_events_in (self : PwnZero) (v : pyval) (data : list Z) :
  In (EvWrite data) (name_events self v) ->
  data = frame 5 (_str_to_bytes self (replace1 (py_str v) gt_sign (py ""))).
Proof.
  unfold name_events. destruct (negb (is_None v)); [apply sent_in|intros []].
Qed.

Lemma face_events_in (self : PwnZero) (v : pyval) (data : list Z) :
  In (EvWrite data) (face_events self v) ->
  data = frame 4 [PwnFace.value (dict_lookup face_mapping v PwnFace.DEFAULT_FACE)].
Proof.
  unfold face_events. destruct (hashable v); [apply sent_in|intros []].
Qed.

(** The frames of the first six statements and of all eight. *)
Lemma update_events_in (self : PwnZero) (ui : View) (data : list Z) :
  In (EvWrite data) (List.concat (update_events self ui)) ->
  (exists args, data = frame 12 args)
  \/ (exists mode : PwnMode.t,
        mode_of (ui_get ui (py "mode")) = Some mode
        /\ data = frame 10 [PwnMode.value mode])
  \/ (exists args, data = frame 6 args)
  \/ (exists args, data = frame 8 args)
  \/ (exists args, data = frame 7 args)
  \/ data = frame 5 (_str_to_bytes self
                       (replace1 (py_str (ui_get ui (py "name"))) gt_sign
                          (py "")))
  \/ data = frame 4 [PwnFace.value
                       (dict_lookup face_mapping (ui_get ui (py "face"))
                          PwnFace.DEFAULT_FACE)]
  \/ (exists args, data = frame 11 args).
Proof.
  unfold update_events. cbn [List.concat]. rewrite app_nil_r.
  rewrite !in_app_iff.
  intros [H|[H|[H|[H|[H|[H|[H|H]]]]]]].
  - left. eexists. exact (text_events_in _ _ _ _ H).
  - right; left. now apply mode_events_in in H.
  - do 2 right; left. eexists. exact (text_events_in _ _ _ _ H).
  - do 3 right; left. eexists. exact (text_events_in _ _ _ _ H).
  - do 4 right; left. eexists. exact (sent_in _ _ _ _ H).
  - do 5 right; left. now apply name_events_in in H.
  - do 6 right; left. exact (face_events_in _ _ _ H).
  - do 7 right. eexists. exact (sent_in _ _ _ _ H).
Qed.

(** X9: whatever the connection and the device do, a NAME frame that
    [on_ui_update] writes carries the code points of [str(name)] with every
    greater-than sign left out, so the byte 62 never occurs in it. *)
Theorem update_name_frame_has_no_gt (self : PwnZero) (ui : View) (w : World) :
  exists evs : list event,
    snd (on_ui_update self ui w) = w ++ evs
    /\ forall payload : list Z,
         In (EvWrite ([0x02; 5] ++ payload ++ [0x03])) evs ->
         payload
         = map ord (filter (fun c => negb (N.eqb c 62))
                      (py_str (ui_get ui (py "name"))))
         /\ ~ In 62 payload.
Proof.
  rewrite on_ui_update_steps.
  destruct (run_steps_adds _ _ (update_steps_add self ui) w) as (r & k & -> & _).
  eexists. split; [reflexivity|]. intros payload Hin.
  apply in_concat_firstn, update_events_in in Hin.
  assert (Hpayload : payload
                     = map ord (filter (fun c => negb (N.eqb c 62))
                                  (py_str (ui_get ui (py "name"))))).
  { destruct Hin as [(a & E)|[(m & _ & E)|[(a & E)|[(a & E)|[(a & E)|[E|[E|(a & E)]]]]]]];
      symmetry in E; apply frame_inj in E; destruct E as [Ep Ea];
      try discriminate Ep.
    subst payload. now rewrite str_to_bytes_map, replace1_empty_filter. }
  split; [exact Hpayload|]. rewrite Hpayload. intros H62.
  apply in_map_iff in H62. destruct H62 as (c & Hc & Hf).
  apply filter_In in Hf. destruct Hf as [_ Hne].
  unfold ord in Hc. assert (c = 62%N) by lia. subst c. discriminate Hne.
Qed.

(** ** More on a connection that accepts every write *)




Lemma count_text_pair (v a b : pyval) (rest : list pyval) :
  v = VTuple (a :: b :: rest) \/ v = VList (a :: b :: rest) ->
  count_text v = py_str a ++ py " (" ++ py_str b ++ py ")".
Proof.
  assert (Hlen : (2 <=? len (a :: b :: rest)) = true).
  { apply Z.leb_le. unfold len. simpl List.length. lia. }
  intros [-> | ->]; unfold count_text;
    cbn [isinstance_tuple_list items_of andb]; rewrite Hlen; reflexivity.
Qed.

Section Accepted.

Variable self : PwnZero.
Hypothesis Hopen : is_open (_serialConn self) = true.
Hypothesis Hdrv : never_fails drv.



(** X12: when the value of [aps] (parameter 7) or of [shakes] (parameter
    11) is a tuple or a list whose first two items are strings [a] and [b]
    of code points below 256, the frame written for it carries the text
    [a (b)]; further items are ignored. *)
Theorem update_pair_formatting
  (ui : View) (w : World) (key : pystr) (p : Z) (a b : pystr)
  (rest : list pyval) :
  hashable (ui_get ui (py "face")) = true ->
  (key = py "aps" /\ p = 7) \/ (key = py "shakes" /\ p = 11) ->
  ui_get ui key = VTuple (VStr a :: VStr b :: rest)
  \/ ui_get ui key = VList (VStr a :: VStr b :: rest) ->
  Forall (fun c => ord c < 256) a ->
  Forall (fun c => ord c < 256) b ->
  exists evs : list event,
    on_ui_update self ui w = (Returned tt, w ++ evs)
    /\ In (EvWrite ([0x02; p] ++ map ord (a ++ py " (" ++ b ++ py ")")
                      ++ [0x03])) evs.
Proof.
  intros Hh Hkey Hv Ha Hb.
  rewrite (update_on_healthy_connection self Hopen Hdrv ui w Hh).
  eexists. split; [reflexivity|].
  assert (Htext : count_text (ui_get ui key) = a ++ py " (" ++ b ++ py ")")
    by (now rewrite (count_text_pair _ _ _ _ Hv)).
  assert (Hbytes : forallb (_is_byte self)
                     (_str_to_bytes self (a ++ py " (" ++ b ++ py ")")) = true).
  { apply forallb_forall. apply Forall_forall. apply latin1_bytes.
    apply Forall_app. split; [exact Ha|]. apply Forall_app. split.
    - repeat constructor.
    - apply Forall_app. split; [exact Hb|repeat constructor]. }
  unfold update_events. cbn [List.concat]. rewrite !in_app_iff.
  destruct Hkey as [[-> ->]|[-> ->]].
  - do 4 right; left. rewrite Htext.
    rewrite (sent_open_valid self Hopen); [|reflexivity|exact Hbytes].
    left. now rewrite str_to_bytes_map.
  - do 7 right; left. rewrite Htext.
    rewrite (sent_open_valid self Hopen); [|reflexivity|exact Hbytes].
    left. now rewrite str_to_bytes_map.
Qed.

(** *** Lookups in a dict display *)

Lemma pystr_eqb_refl (a : pystr) : pystr_eqb a a = true.
Proof. now apply pystr_eqb_eq. Qed.

Lemma pystr_eqb_neq (a b : pystr) : a <> b -> pystr_eqb a b = false.
Proof.
  intros Hne. destruct (pystr_eqb a b) eqn:E; [|reflexivity].
  apply pystr_eqb_eq in E. contradiction.
Qed.

Lemma dict_find_set_same {V : Type} (d : dict V) (k : pystr) (v : V) :
  dict_find (dict_set d k v) k = Some v.
Proof.
  induction d as [|[k' v'] d IH]; simpl.
  - now rewrite pystr_eqb_refl.
  - destruct (pystr_eqb k k') eqn:E; simpl; rewrite E; [reflexivity|exact IH].
Qed.

Lemma dict_find_set_other {V : Type} (d : dict V) (k q : pystr) (v : V) :
  k <> q -> dict_find (dict_set d k v) q = dict_find d q.
Proof.
  intros Hne. induction d as [|[k' v'] d IH]; simpl.
  - rewrite pystr_eqb_neq; [reflexivity|congruence].
  - destruct (pystr_eqb k k') eqn:E; simpl.
    + apply pystr_eqb_eq in E. subst k'.
      rewrite pystr_eqb_neq; [reflexivity|congruence].
    + destruct (pystr_eqb q k'); [reflexivity|exact IH].
Qed.

Lemma dict_fold_absent {V : Type} (items : list (pystr * V)) (acc : dict V) (k : pystr) :
  ~ In k (map fst items) ->
  dict_find (fold_left (fun d kv => dict_set d (fst kv) (snd kv)) items acc) k
  = dict_find acc k.
Proof.
  revert acc. induction items as [|[k' v'] items IH]; intros acc Hk; simpl.
  - reflexivity.
  - rewrite IH by (intros H; apply Hk; now right).
    apply dict_find_set_other. intros E. apply Hk. now left.
Qed.

Lemma dict_literal_absent {V : Type} (items : list (pystr * V)) (k : pystr) :
  ~ In k (map fst items) -> dict_find (dict_literal items) k = None.
Proof. intros Hk. unfold dict_literal. now rewrite dict_fold_absent. Qed.

Lemma dict_literal_last {V : Type} (pre post : list (pystr * V)) (k : pystr) (v : V) :
  ~ In k (map fst post) ->
  dict_find (dict_literal (pre ++ (k, v) :: post)) k = Some v.
Proof.
  intros Hk. unfold dict_literal. rewrite fold_left_app. simpl.
  rewrite dict_fold_absent by exact Hk. apply dict_find_set_same.
Qed.

Lemma dict_literal_found {V : Type} (items : list (pystr * V)) (k : pystr) (v : V) :
  dict_find (dict_literal items) k = Some v -> In (k, v) items.
Proof.
  unfold dict_literal.
  assert (G : forall (todo done : list (pystr * V)) (acc : dict V),
             (forall v0, dict_find acc k = Some v0 -> In (k, v0) done) ->
             dict_find
               (fold_left (fun d kv => dict_set d (fst kv) (snd kv)) todo acc) k
             = Some v -> In (k, v) (done ++ todo)).
  { induction todo as [|[k' v'] todo IH]; intros done acc Hacc Hv; simpl in Hv.
    - rewrite app_nil_r. now apply Hacc.
    - change (done ++ (k', v') :: todo) with (done ++ [(k', v')] ++ todo).
      rewrite app_assoc. apply (IH _ (dict_set acc k' v')); [|exact Hv].
      intros v0 Hv0. apply in_or_app.
      destruct (pystr_eqb k' k) eqn:E.
      + apply pystr_eqb_eq in E. subst k'.
        rewrite dict_find_set_same in Hv0. injection Hv0 as <-.
        right. now left.
      + rewrite dict_find_set_other in Hv0.
        * left. now apply Hacc.
        * intros Heq. subst k'. now rewrite pystr_eqb_refl in E. }
  intros Hv. apply (G items [] []); [|exact Hv]. simpl. discriminate.
Qed.

Lemma dict_fold_present {V : Type} (items : list (pystr * V)) (acc : dict V) (k : pystr) :
  In k (map fst items) \/ dict_find acc k <> None ->
  dict_find (fold_left (fun d kv => dict_set d (fst kv) (snd kv)) items acc) k
  <> None.
Proof.
  revert acc. induction items as [|[k' v'] items IH]; intros acc H; simpl.
  - destruct H as [[]|H]. exact H.
  - apply IH. simpl in H. destruct (pystr_eqb k' k) eqn:E.
    + apply pystr_eqb_eq in E. subst k'. right.
      rewrite dict_find_set_same. discriminate.
    + assert (Hne : k' <> k)
        by (intros Heq; subst k'; now rewrite pystr_eqb_refl in E).
      destruct H as [[Hk|Hk]|Hk]; [contradiction|now left|].
      right. now rewrite dict_find_set_other.
Qed.

Lemma dict_literal_present {V : Type} (items : list (pystr * V)) (k : pystr) (v : V) :
  In (k, v) items -> dict_find (dict_literal items) k <> None.
Proof.
  intros Hin. unfold dict_literal. apply dict_fold_present. left.
  apply in_map_iff. now exists (k, v).
Qed.

(** X13: exactly one FACE frame is written: the history grows by the
    events before it, the FACE frame, and the events after it, and no write
    before or after it carries the parameter 4.  Its code is that of
    DEFAULT_FACE precisely when the face value is not one of the strings of
    the face table; and for a face string of the table, the code is the one
    of the last table entry with that string (with pairwise different face
    strings, the entry of that string). *)
Theorem update_face_code (ui : View) (w : World) :
  hashable (ui_get ui (py "face")) = true ->
  exists (before after : list event) (v : Z),
    on_ui_update self ui w
    = (Returned tt, w ++ before ++ [EvWrite [0x02; 4; v; 0x03]] ++ after)
    /\ (forall data : list Z,
          In (EvWrite data) (before ++ after) -> nth_error data 1 <> Some 4)
    /\ (forall v' : Z,
          In (EvWrite [0x02; 4; v'; 0x03])
            (before ++ [EvWrite [0x02; 4; v; 0x03]] ++ after)
          <-> v' = v)
    /\ (v = 5
        <-> forall (k : pystr) (f : PwnFace.t),
              In (k, f) face_items -> ui_get ui (py "face") <> VStr k)
    /\ (forall (pre post : list (pystr * PwnFace.t)) (k : pystr)
               (f : PwnFace.t),
          face_items = pre ++ (k, f) :: post ->
          ~ In k (map fst post) ->
          ui_get ui (py "face") = VStr k ->
          v = PwnFace.value f).
Proof.
  intros Hh. rewrite (update_on_healthy_connection self Hopen Hdrv ui w Hh).
  exists (text_events self PwnZeroParam.MESSAGE (ui_get ui (py "status"))
          ++ mode_events self (ui_get ui (py "mode"))
          ++ text_events self PwnZeroParam.CHANNEL (ui_get ui (py "channel"))
          ++ text_events self PwnZeroParam.UPTIME (ui_get ui (py "uptime"))
          ++ sent self (PwnZeroParam.value PwnZeroParam.APS)
               (_str_to_bytes self (count_text (ui_get ui (py "aps"))))
          ++ name_events self (ui_get ui (py "name"))),
    (sent self (PwnZeroParam.value PwnZeroParam.HANDSHAKES)
       (_str_to_bytes self (count_text (ui_get ui (py "shakes"))))),
    (PwnFace.value
       (dict_lookup face_mapping (ui_get ui (py "face")) PwnFace.DEFAULT_FACE)).
  assert (Hno4 : forall data : list Z,
             In (EvWrite data)
               ((text_events self PwnZeroParam.MESSAGE (ui_get ui (py "status"))
                 ++ mode_events self (ui_get ui (py "mode"))
                 ++ text_events self PwnZeroParam.CHANNEL
                      (ui_get ui (py "channel"))
                 ++ text_events self PwnZeroParam.UPTIME
                      (ui_get ui (py "uptime"))
                 ++ sent self (PwnZeroParam.value PwnZeroParam.APS)
                      (_str_to_bytes self (count_text (ui_get ui (py "aps"))))
                 ++ name_events self (ui_get ui (py "name")))
                ++ sent self (PwnZeroParam.value PwnZeroParam.HANDSHAKES)
                     (_str_to_bytes self
                        (count_text (ui_get ui (py "shakes"))))) ->
             nth_error data 1 <> Some 4).
  { intros data Hin. rewrite !in_app_iff in Hin.
    destruct Hin as [[H|[H|[H|[H|[H|H]]]]]|H];
      first [ apply text_events_in in H
            | apply mode_events_in in H; destruct H as (m & _ & H)
            | apply name_events_in in H
            | apply sent_in in H ];
      rewrite H, frame_param; discriminate. }
  split; [|split; [exact Hno4|split; [|split]]].
  - unfold update_events. cbn [List.concat].
    rewrite (face_events_frame self _ Hopen Hh), app_nil_r.
    now rewrite <- !app_assoc.
  - intros v'. rewrite in_app_iff. split.
    + intros [Hin|Hin].
      * exfalso. apply (Hno4 [0x02; 4; v'; 0x03]); [|reflexivity].
        apply in_or_app. now left.
      * apply in_app_iff in Hin. destruct Hin as [[E|[]]|Hin].
        -- now injection E.
        -- exfalso. apply (Hno4 [0x02; 4; v'; 0x03]); [|reflexivity].
           apply in_or_app. now right.
    + intros ->. right. apply in_or_app. left. now left.
  - unfold dict_lookup. destruct (ui_get ui (py "face")) as [|s|i|items|items];
      try (split; [intros _ k f _; discriminate|reflexivity]).
    destruct (dict_find face_mapping s) as [f|] eqn:Hf.
    + pose proof (dict_literal_found _ _ _ Hf) as Hin. split.
      * intros H5. exfalso.
        apply (dict_find_values (fun f => 6 <= PwnFace.value f <= 30)) in Hf;
          [lia|].
        unfold face_mapping, face_items.
        apply (dict_literal_values (fun f => 6 <= PwnFace.value f <= 30)).
        repeat (apply Forall_cons; [cbn [snd PwnFace.value]; lia|]).
        apply Forall_nil.
      * intros Hno. exfalso. exact (Hno s f Hin eq_refl).
    + split; [|reflexivity]. intros _ k f Hin E. injection E as ->.
      exact (dict_literal_present _ _ _ Hin Hf).
  - intros pre post k f Hitems Hk E. rewrite E. unfold dict_lookup, face_mapping.
    rewrite Hitems. now rewrite dict_literal_last.
Qed.

End Accepted.

End Updating.

(** * The further properties on concrete inputs *)

Lemma full_driver_never_fails : never_fails full_driver.
Proof. intros w data. exists (len data). reflexivity. Qed.

Lemma short_driver_never_fails : never_fails short_driver.
Proof. intros w data. exists (len data - 1). reflexivity. Qed.

(** A name holding the bytes 3, 2, 6 reads on the wire as a NAME frame
    followed by a CHANNEL frame. *)
Lemma markers_witness_name_then_channel :
  is_open (_serialConn plugin0) = true
  /\ never_fails full_driver
  /\ Forall (fun c => ord c < 256) (py "a")
  /\ Forall (fun c => ord c < 256) (py "b")
  /\ wire (snd (set_name (drv := full_driver) plugin0
                  (py "a" ++ [3%N; 2%N; 6%N] ++ py "b") []))
     = wire (snd ((_ <- set_name (drv := full_driver) plugin0 (py "a") ;;
                   set_channel (drv := full_driver) plugin0 (py "b")) [])).
Proof.
  assert (Ha : Forall (fun c => ord c < 256) (py "a"))
    by (repeat constructor).
  assert (Hb : Forall (fun c => ord c < 256) (py "b"))
    by (repeat constructor).
  split; [reflexivity|]. split; [exact full_driver_never_fails|].
  split; [exact Ha|]. split; [exact Hb|].
  exact (markers_in_payload_not_escaped (drv := full_driver) plugin0
           (py "a") (py "b") [] eq_refl full_driver_never_fails Ha Hb).
Defined.

(** The default constructor on a device that opens every port. *)
Lemma init_witness_default_port :
  fst (__init__ (drv := full_driver) default_port default_baud [])
  = Ret plugin0
  /\ os_open (SerialDriver := full_driver) [] default_port default_baud = Opened
  /\ _port plugin0 = default_port
  /\ _baud plugin0 = default_baud
  /\ _serialConn plugin0
     = {| port := default_port; baudrate := default_baud; is_open := true |}.
Proof.
  assert (Hret : fst (__init__ (drv := full_driver) default_port default_baud [])
                 = Ret plugin0) by reflexivity.
  split; [exact Hret|].
  exact (proj2 (init_returns_open_connection (drv := full_driver)
                  default_port default_baud []) plugin0 Hret).
Defined.

(** A full UI state on a device that reports short writes. *)
Lemma update_order_witness_short_writes :
  is_open (_serialConn plugin0) = true
  /\ never_fails short_driver
  /\ hashable (ui_get ui0 (py "face")) = true
  /\ exists (v : Z) (e12 e10 e6 e8 e7 e5 e11 : list event),
       on_ui_update (drv := short_driver) (bi := plain_builtins)
         (fc := stock_faces) plugin0 ui0 []
       = (Returned tt,
          [] ++ e12 ++ e10 ++ e6 ++ e8 ++ e7 ++ e5
             ++ [EvWrite [0x02; 4; v; 0x03]] ++ e11)
       /\ 5 <= v <= 30
       /\ at_most_frame 12 e12 /\ at_most_frame 10 e10
       /\ at_most_frame 6 e6 /\ at_most_frame 8 e8
       /\ at_most_frame 7 e7 /\ at_most_frame 5 e5
       /\ at_most_frame 11 e11.
Proof.
  split; [reflexivity|]. split; [exact short_driver_never_fails|].
  split; [reflexivity|].
  exact (update_sends_frames_in_order (drv := short_driver)
           (bi := plain_builtins) (fc := stock_faces) plugin0 ui0 []
           eq_refl short_driver_never_fails eq_refl).
Defined.

(** An empty UI state. *)
Lemma update_no_keys_witness :
  is_open (_serialConn plugin0) = true
  /\ never_fails full_driver
  /\ (forall key : pystr,
        In key [py "status"; py "mode"; py "channel"; py "uptime"; py "aps";
                py "name"; py "face"; py "shakes"] ->
        ui_get ui_empty key = VNone)
  /\ on_ui_update (drv := full_driver) (bi := plain_builtins)
       (fc := stock_faces) plugin0 ui_empty []
     = (Returned tt,
        [] ++ [EvWrite [0x02; 7; 0x03]; EvWrite [0x02; 4; 5; 0x03];
               EvWrite [0x02; 11; 0x03]]).
Proof.
  assert (Hnone : forall key : pystr,
             In key [py "status"; py "mode"; py "channel"; py "uptime";
                     py "aps"; py "name"; py "face"; py "shakes"] ->
             ui_get ui_empty key = VNone) by (intros key _; reflexivity).
  split; [reflexivity|]. split; [exact full_driver_never_fails|].
  split; [exact Hnone|].
  exact (update_with_no_keys_sends_three_frames (drv := full_driver)
           (bi := plain_builtins) (fc := stock_faces) plugin0 ui_empty []
           eq_refl full_driver_never_fails Hnone).
Defined.

(** The full UI state after [close]. *)
Lemma update_closed_witness :
  is_open (_serialConn plugin0_closed) = false
  /\ exists e : pyexn,
       on_ui_update (drv := full_driver) (bi := plain_builtins)
         (fc := stock_faces) plugin0_closed ui0 [EvClose]
       = (Raised e, [EvClose])
       /\ (e = FromSend port_not_open
           \/ (hashable (ui_get ui0 (py "face")) = false /\ e = unhashable)).
Proof.
  split; [reflexivity|].
  exact (update_on_closed_connection_raises (drv := full_driver)
           (bi := plain_builtins) (fc := stock_faces) plugin0_closed eq_refl
           ui0 [EvClose]).
Defined.



(** The pair [("3", "10")] for [aps] is sent as the text 3 (10). *)
Lemma update_pair_witness_aps :
  is_open (_serialConn plugin0) = true
  /\ never_fails full_driver
  /\ hashable (ui_get ui0 (py "face")) = true
  /\ ui_get ui0 (py "aps") = VTuple [VStr (py "3"); VStr (py "10")]
  /\ exists evs : list event,
       on_ui_update (drv := full_driver) (bi := plain_builtins)
         (fc := stock_faces) plugin0 ui0 []
       = (Returned tt, [] ++ evs)
       /\ In (EvWrite ([0x02; 7] ++ map ord (py "3" ++ py " (" ++ py "10" ++ py ")")
                         ++ [0x03])) evs.
Proof.
  split; [reflexivity|]. split; [exact full_driver_never_fails|].
  split; [reflexivity|]. split; [reflexivity|].
  apply (update_pair_formatting (drv := full_driver) (bi := plain_builtins)
           (fc := stock_faces) plugin0 eq_refl full_driver_never_fails
           ui0 [] (py "aps") 7 (py "3") (py "10") []).
  - reflexivity.
  - left. split; reflexivity.
  - left. reflexivity.
  - repeat constructor.
  - repeat constructor.
Defined.

(** The face string HAPPY of the stock table is sent as the code 16, in
    the only FACE frame of the update. *)
Lemma update_face_witness_happy :
  is_open (_serialConn plugin0) = true
  /\ never_fails full_driver
  /\ hashable (ui_get ui0 (py "face")) = true
  /\ exists before after : list event,
       on_ui_update (drv := full_driver) (bi := plain_builtins)
         (fc := stock_faces) plugin0 ui0 []
       = (Returned tt,
          [] ++ before ++ [EvWrite [0x02; 4; 16; 0x03]] ++ after)
       /\ (forall data : list Z,
             In (EvWrite data) (before ++ after) ->
             nth_error data 1 <> Some 4).
Proof.
  split; [reflexivity|]. split; [exact full_driver_never_fails|].
  split; [reflexivity|].
  destruct (update_face_code (drv := full_driver) (bi := plain_builtins)
              (fc := stock_faces) plugin0 eq_refl full_driver_never_fails
              ui0 [] eq_refl)
    as (before & after & v & Hrun & Hno4 & _ & _ & Hlast).
  assert (Hv : v = 16).
  { apply (Hlast (firstn 10 (face_items (fc := stock_faces)))
             (skipn 11 (face_items (fc := stock_faces)))
             (faces.HAPPY (t := stock_faces)) PwnFace.HAPPY).
    - reflexivity.
    - intros H. simpl in H.
      repeat (destruct H as [H|H]; [discriminate H|]). exact H.
    - reflexivity. }
  exists before, after. split; [|exact Hno4].
  rewrite Hrun, Hv. reflexivity.
Defined.
